(** * AI Model Training Platform backend: a shallow embedding of
      [backend/server.py] and the properties of its handlers.

    The embedding follows the source handler by handler.  The document
    store is four insertion-ordered collections; a handler is a function
    from the store to an outcome and the store it leaves behind, so that a
    write made before an exception stays made, as in the source.  The
    libraries the source calls (PyJWT, bcrypt, json, pandas, pydantic, the
    chat client) and the configuration read from the environment are the
    fields of one record, [externals]; what a proof needs from a library
    is a hypothesis on that record. *)

From Stdlib Require Import ZArith QArith String Ascii Lia.
From stdpp Require Import base list strings numbers option gmap.

Close Scope Q_scope.
Open Scope Z_scope.

(** ** Python strings

    A Python [str] is a sequence of Unicode code points. *)

Definition codepoint := N.
Definition str := list codepoint.
Definition bytes := list Byte.byte.

(** A string literal of the source, read as its code points. *)
Definition lit (s : string) : str :=
  (fun a => N_of_ascii a) <$> list_ascii_of_string s.
Arguments lit : simpl never.

(** The code points [str.strip] and [str.isspace] treat as white space. *)
Definition py_whitespace : list codepoint :=
  [9; 10; 11; 12; 13; 28; 29; 30; 31; 32; 133; 160; 5760;
   8192; 8193; 8194; 8195; 8196; 8197; 8198; 8199; 8200; 8201; 8202;
   8232; 8233; 8239; 8287; 12288]%N.

Definition isspace (c : codepoint) : bool := bool_decide (c ∈ py_whitespace).

Fixpoint lstrip (s : str) : str :=
  match s with
  | [] => []
  | c :: r => if isspace c then lstrip r else s
  end.

Definition rstrip (s : str) : str := reverse (lstrip (reverse s)).

(** [s.strip()] *)
Definition strip (s : str) : str := rstrip (lstrip s).

(** Truth value of a [str]: the empty string is false. *)
Definition str_truthy (s : str) : bool :=
  match s with [] => false | _ :: _ => true end.

(** [s.split(sep)] for a one-character separator: one more piece than
    there are separators, empty pieces kept. *)
Fixpoint split (sep : codepoint) (s : str) : list str :=
  match s with
  | [] => [[]]
  | c :: r =>
      if decide (c = sep) then [] :: split sep r
      else match split sep r with
           | [] => [[c]]
           | piece :: pieces => (c :: piece) :: pieces
           end
  end.


(** A [str] all of whose characters are ASCII. *)
Definition is_ascii (s : str) : Prop := Forall (fun c => (c < 128)%N) s.

#[global] Instance is_ascii_dec s : Decision (is_ascii s).
Proof. unfold is_ascii; apply _. Defined.

(** [s.lower()] of an ASCII string: the letters A-Z are lowered, one by
    one. *)
Definition lower_codepoint (c : codepoint) : codepoint :=
  if ((65 <=? c) && (c <=? 90))%N then (c + 32)%N else c.

Definition ascii_lower (s : str) : str := lower_codepoint <$> s.

(** [s.encode('utf-8')]: a code point becomes one to four bytes; a
    surrogate has no encoding, and [encode] raises [UnicodeEncodeError],
    which is a [ValueError]. *)
Definition utf8_units (c : codepoint) : option (list N) :=
  if (c <? 128)%N then Some [c]
  else if (c <? 2048)%N then Some [192 + c / 64; 128 + c mod 64]%N
  else if (c <? 65536)%N then
    if ((55296 <=? c) && (c <=? 57343))%N then None
    else Some [224 + c / 4096; 128 + (c / 64) mod 64; 128 + c mod 64]%N
  else if (c <? 1114112)%N then
    Some [240 + c / 262144; 128 + (c / 4096) mod 64;
          128 + (c / 64) mod 64; 128 + c mod 64]%N
  else None.

Definition byte_of_N (n : N) : Byte.byte := default Byte.x00 (Byte.of_N n).

#[global] Instance byte_eq_dec : EqDecision Byte.byte := Byte.byte_eq_dec.

Definition newline : codepoint := 10%N.
Definition dot : codepoint := 46%N.

(** ** Python values: what [json.loads] and [DataFrame.to_dict] return *)

#[warnings="-register-all"] Inductive pyval :=
| PyNone
| PyBool (b : bool)
| PyInt (n : Z)
| PyFloat (repr : str)
| PyStr (s : str)
| PyList (l : list pyval)
| PyDict (d : gmap str pyval).

Definition is_dict (v : pyval) : Prop :=
  match v with PyDict _ => True | _ => False end.

#[global] Instance is_dict_dec v : Decision (is_dict v).
Proof. destruct v; simpl; apply _. Defined.

(** [type(v).__name__] *)
Definition type_name (v : pyval) : str :=
  match v with
  | PyNone => lit "NoneType"
  | PyBool _ => lit "bool"
  | PyInt _ => lit "int"
  | PyFloat _ => lit "float"
  | PyStr _ => lit "str"
  | PyList _ => lit "list"
  | PyDict _ => lit "dict"
  end.

(** ** Exceptions *)

(** Exceptions raised by Python itself and by the libraries. *)
Inductive pyerror :=
| ValueError (msg : str)
| AttributeError (msg : str)
| ExpiredSignatureError (msg : str)
| InvalidTokenError (msg : str)
| OtherError (msg : str).

(** [str(e)] *)
Definition pyerror_str (e : pyerror) : str :=
  match e with
  | ValueError m | AttributeError m | ExpiredSignatureError m
  | InvalidTokenError m | OtherError m => m
  end.

(** What leaves a handler: an [HTTPException] the handler raised, or an
    exception nothing caught (the framework answers 500). *)
Inductive exception :=
| HTTPException (status_code : Z) (detail : str)
| Unhandled (e : pyerror).

Inductive outcome (E A : Type) :=
| Returns (a : A)
| Raises (e : E).
Arguments Returns {E A} a.
Arguments Raises {E A} e.

#[global] Instance outcome_ret {E} : MRet (outcome E) := fun _ a => Returns a.
#[global] Instance outcome_bind {E} : MBind (outcome E) :=
  fun _ _ k m => match m with Returns a => k a | Raises e => Raises e end.

Definition utf8_encode (s : str) : outcome pyerror bytes :=
  match mapM utf8_units s with
  | Some units => Returns (byte_of_N <$> concat units)
  | None =>
      Raises (ValueError
                (lit "'utf-8' codec can't encode character: surrogates not allowed"))
  end.

(** [int(x)] of a float, read as the rational it stands for: the
    fraction is dropped, towards zero. *)
Definition py_int (x : Q) : Z := Z.quot (Qnum x) (Z.pos (Qden x)).

(** ** The models of the source *)

Module User.
Record t := mk { id : str; email : str; name : str; created_at : Z }.
End User.

(** A document of [db.users]: [user.dict()] with the key [password] added. *)
Module UserDoc.
Record t := mk
    { id : str; email : str; name : str; created_at : Z; password : str }.
End UserDoc.

Module AuthResponse.
Record t := mk { access_token : str; user : User.t }.
End AuthResponse.

Module Dataset.
Record t := mk
    { id : str; name : str; user_id : str; file_type : str;
      file_size : nat; data_preview : list pyval;
      column_count : nat; row_count : nat; created_at : Z }.
End Dataset.

(** A document of [db.datasets]: [dataset.dict()] with the key [full_data]
    added. *)
Module DatasetDoc.
Record t := mk
    { id : str; name : str; user_id : str; file_type : str;
      file_size : nat; data_preview : list pyval;
      column_count : nat; row_count : nat; created_at : Z;
      full_data : list pyval }.
End DatasetDoc.

Module ModelTraining.
Record t := mk
    { id : str; name : str; user_id : str; dataset_id : str;
      status : str; model_type : str; custom_prompt : str;
      training_data : list pyval; created_at : Z;
      completed_at : option Z }.
End ModelTraining.

Module DeployedModel.
Record t := mk
    { id : str; name : str; user_id : str; training_id : str;
      api_endpoint : str; status : str; usage_count : Z;
      created_at : Z }.
End DeployedModel.

Module ModelTestResponse.
Record t := mk { output : str; confidence : Q; processing_time : Q }.
End ModelTestResponse.

(** The dictionary [get_dashboard_stats] returns. *)
Module Stats.
Record t := mk
    { datasets : nat; models : nat; deployed : nat; api_calls : Z }.
End Stats.

(** The dictionary [process_uploaded_data] returns. *)
Module Processed.
Record t := mk
    { data : list pyval; preview : list pyval;
      column_count : nat; row_count : nat }.
End Processed.

(** The claims of a token: [user_id] may be missing; [exp] is the float
    the source puts there, seconds with a fraction. *)
Module Payload.
Record t := mk { user_id : option str; exp : Q }.
End Payload.

(** The result of [pd.read_csv]: the header and [df.to_dict('records')]. *)
Module DataFrame.
Record t := mk { columns : list str; records : list pyval }.
End DataFrame.

(** An [LlmChat] after [with_model]. *)
Module LlmChat.
Record t := mk
    { api_key : str; session_id : str; system_message : str;
      provider : str; model : str }.
End LlmChat.

(** ** The libraries and the configuration

    One value of this record is the world one request runs in: the
    configuration read from the environment and the answers of the
    libraries.  A reading of [timestamp()] is a float, seconds since the
    epoch with a fraction; it is kept as the rational it stands for. *)

Record externals := Externals
  { (** [os.environ.get('JWT_SECRET', ...)] *)
    JWT_SECRET : str;
    (** [os.environ.get('GOOGLE_API_KEY')] *)
    GOOGLE_API_KEY : option str;
    (** [jwt.encode(payload, key, algorithm="HS256")] *)
    jwt_encode : Payload.t -> str -> str;
    (** [jwt.decode(token, key, algorithms=["HS256"])] at a clock reading *)
    jwt_decode : str -> str -> Q -> outcome pyerror Payload.t;
    (** [bcrypt.hashpw(password, salt).decode('utf-8')]: the hash is
        ASCII text; the call raises for a password it does not take *)
    hashpw : bytes -> bytes -> outcome pyerror str;
    (** [bcrypt.checkpw(password, hashed.encode('utf-8'))] *)
    checkpw : bytes -> str -> outcome pyerror bool;
    (** [s.lower()] of a string that is not ASCII: the case tables of the
        interpreter's Unicode database *)
    unicode_lower : str -> str;
    (** [content.decode('utf-8')] *)
    utf8_decode : bytes -> outcome pyerror str;
    (** [json.loads(text)] *)
    json_loads : str -> outcome pyerror pyval;
    (** [pd.read_csv(io.BytesIO(content))] *)
    read_csv : bytes -> outcome pyerror DataFrame.t;
    (** pydantic's validation of a field of type [List[Dict[str, Any]]] *)
    validate_rows : list pyval -> outcome pyerror (list pyval);
    (** [await chat.send_message(UserMessage(text=...))] *)
    send_message : LlmChat.t -> str -> outcome pyerror str;
    (** the two readings of [datetime.now()] in [test_model], in
        microseconds *)
    clock_start : Z;
    clock_end : Z }.

(** ** The document store *)

Record DB := mkDB
  { users : list UserDoc.t;
    datasets : list DatasetDoc.t;
    model_trainings : list ModelTraining.t;
    deployed_models : list DeployedModel.t }.

Definition empty_db : DB := mkDB [] [] [] [].

(** The operations of a collection.  Documents are kept in insertion
    order, which is the order a query without a sort returns them in. *)
Section Collection.
Context {A : Type} (P : A -> Prop) `{!forall x, Decision (P x)}.

(** [collection.find(filter)] *)
Definition find (l : list A) : list A := filter P l.

(** [collection.find_one(filter)]: the first match or [None]. *)
Definition find_one (l : list A) : option A := head (filter P l).

(** [collection.count_documents(filter)] *)
Definition count_documents (l : list A) : nat := length (filter P l).

(** [collection.update_one(filter, update)]: the first match is updated,
    and nothing happens when there is none. *)
Fixpoint update_one (f : A -> A) (l : list A) : list A :=
  match l with
  | [] => []
  | x :: r => if decide (P x) then f x :: r else x :: update_one f r
  end.

End Collection.

(** [cursor.to_list(n)] *)
Definition to_list {A} (n : nat) (l : list A) : list A := take n l.

(** [collection.insert_one(doc)] *)
Definition insert_one {A} (doc : A) (l : list A) : list A := l ++ [doc].

(** The filters of the source. *)
Definition user_has_id (i : str) (u : UserDoc.t) : Prop := UserDoc.id u = i.
Definition user_has_email (e : str) (u : UserDoc.t) : Prop :=
  UserDoc.email u = e.
Definition dataset_of (uid : str) (d : DatasetDoc.t) : Prop :=
  DatasetDoc.user_id d = uid.
Definition dataset_is (i uid : str) (d : DatasetDoc.t) : Prop :=
  DatasetDoc.id d = i /\ DatasetDoc.user_id d = uid.
Definition training_of (uid : str) (m : ModelTraining.t) : Prop :=
  ModelTraining.user_id m = uid.
Definition training_is (i uid : str) (m : ModelTraining.t) : Prop :=
  ModelTraining.id m = i /\ ModelTraining.user_id m = uid.
Definition deployment_of (uid : str) (d : DeployedModel.t) : Prop :=
  DeployedModel.user_id d = uid.
Definition deployment_for (tid uid : str) (d : DeployedModel.t) : Prop :=
  DeployedModel.training_id d = tid /\ DeployedModel.user_id d = uid.

#[global] Instance user_has_id_dec i u : Decision (user_has_id i u).
Proof. unfold user_has_id; apply _. Defined.
#[global] Instance user_has_email_dec e u : Decision (user_has_email e u).
Proof. unfold user_has_email; apply _. Defined.
#[global] Instance dataset_of_dec uid d : Decision (dataset_of uid d).
Proof. unfold dataset_of; apply _. Defined.
#[global] Instance dataset_is_dec i uid d : Decision (dataset_is i uid d).
Proof. unfold dataset_is; apply _. Defined.
#[global] Instance training_of_dec uid m : Decision (training_of uid m).
Proof. unfold training_of; apply _. Defined.
#[global] Instance training_is_dec i uid m : Decision (training_is i uid m).
Proof. unfold training_is; apply _. Defined.
#[global] Instance deployment_of_dec uid d : Decision (deployment_of uid d).
Proof. unfold deployment_of; apply _. Defined.
#[global] Instance deployment_for_dec tid uid d :
  Decision (deployment_for tid uid d).
Proof. unfold deployment_for; apply _. Defined.

(** ** Handlers

    A handler runs against the store and leaves a store behind whether it
    returns or raises. *)

Definition handler (A : Type) : Type := DB -> outcome exception A * DB.

#[global] Instance handler_ret : MRet handler := fun _ a db => (Returns a, db).
#[global] Instance handler_bind : MBind handler :=
  fun _ _ k m db =>
    match m db with
    | (Returns a, db') => k a db'
    | (Raises e, db') => (Raises e, db')
    end.

#[global] Instance handler_fmap : FMap handler :=
  fun _ _ f m db =>
    match m db with
    | (Returns a, db') => (Returns (f a), db')
    | (Raises e, db') => (Raises e, db')
    end.

Definition raise {A} (e : exception) : handler A := fun db => (Raises e, db).

(** A query: reads the store. *)
Definition query {A} (q : DB -> A) : handler A := fun db => (Returns (q db), db).

(** A write: one update of the store. *)
Definition write (u : DB -> DB) : handler unit := fun db => (Returns tt, u db).

(** A library call outside any [try]: its exception is not caught. *)
Definition call {A} (r : outcome pyerror A) : handler A :=
  match r with
  | Returns a => mret a
  | Raises e => raise (Unhandled e)
  end.

(** The model [User] built from the keys of a user document: the keys
    the model does not declare are dropped. *)
Definition User_of_doc (d : UserDoc.t) : User.t :=
  User.mk (UserDoc.id d) (UserDoc.email d) (UserDoc.name d)
    (UserDoc.created_at d).

(** [user.dict()] with [password] set. *)
Definition UserDoc_of (u : User.t) (hashed_password : str) : UserDoc.t :=
  UserDoc.mk (User.id u) (User.email u) (User.name u) (User.created_at u)
    hashed_password.

(** The model [Dataset] built from the items of a dataset document whose
    key is not [full_data]. *)
Definition Dataset_of_doc (d : DatasetDoc.t) : Dataset.t :=
  Dataset.mk (DatasetDoc.id d) (DatasetDoc.name d) (DatasetDoc.user_id d)
    (DatasetDoc.file_type d) (DatasetDoc.file_size d)
    (DatasetDoc.data_preview d) (DatasetDoc.column_count d)
    (DatasetDoc.row_count d) (DatasetDoc.created_at d).

(** [dataset.dict()] with [full_data] set. *)
Definition DatasetDoc_of (d : Dataset.t) (full_data : list pyval)
  : DatasetDoc.t :=
  DatasetDoc.mk (Dataset.id d) (Dataset.name d) (Dataset.user_id d)
    (Dataset.file_type d) (Dataset.file_size d) (Dataset.data_preview d)
    (Dataset.column_count d) (Dataset.row_count d) (Dataset.created_at d)
    full_data.

(** [{"$inc": {"usage_count": 1}}] *)
Definition inc_usage_count (d : DeployedModel.t) : DeployedModel.t :=
  DeployedModel.mk (DeployedModel.id d) (DeployedModel.name d)
    (DeployedModel.user_id d) (DeployedModel.training_id d)
    (DeployedModel.api_endpoint d) (DeployedModel.status d)
    (DeployedModel.usage_count d + 1) (DeployedModel.created_at d).

Definition set_users (f : list UserDoc.t -> list UserDoc.t) (db : DB) : DB :=
  mkDB (f (users db)) (datasets db) (model_trainings db) (deployed_models db).
Definition set_datasets (f : list DatasetDoc.t -> list DatasetDoc.t)
  (db : DB) : DB :=
  mkDB (users db) (f (datasets db)) (model_trainings db) (deployed_models db).
Definition set_model_trainings
  (f : list ModelTraining.t -> list ModelTraining.t) (db : DB) : DB :=
  mkDB (users db) (datasets db) (f (model_trainings db)) (deployed_models db).
Definition set_deployed_models
  (f : list DeployedModel.t -> list DeployedModel.t) (db : DB) : DB :=
  mkDB (users db) (datasets db) (model_trainings db) (f (deployed_models db)).

(** The request bodies. *)
Module UserCreate.
Record t := mk { email : str; password : str; name : str }.
End UserCreate.

Module UserLogin.
Record t := mk { email : str; password : str }.
End UserLogin.

Module ModelTest.
Record t := mk { input_text : str }.
End ModelTest.

(** A result computed outside the store. *)
Definition lift {A} (r : outcome exception A) : handler A := fun db => (r, db).

(** [len(v.keys())]: only a dict has [keys]. *)
Definition len_keys (v : pyval) : outcome pyerror nat :=
  match v with
  | PyDict d => Returns (size d)
  | _ =>
      Raises (AttributeError
                (lit "'" ++ type_name v ++ lit "' object has no attribute 'keys'"))
  end.

(** [file_extension not in allowed_types] is decided on this list. *)
Definition allowed_types : list str := [lit "csv"; lit "json"; lit "txt"].

(** ** The functions of [server.py] *)

Section Server.
Context (E : externals).

(** [s.lower()]: an ASCII string is lowered letter by letter, any other
    string through the Unicode case tables. *)
Definition lower (s : str) : str :=
  if decide (is_ascii s) then ascii_lower s else unicode_lower E s.

(** [file.filename.split('.')[-1].lower() if '.' in file.filename else ''] *)
Definition file_extension_of (filename : str) : str :=
  if decide (dot ∈ filename)
  then lower (default [] (last (split dot filename)))
  else [].

(** The random salt of [bcrypt.gensalt()] is an argument.  Encoding the
    password and hashing it can both raise. *)
Definition hash_password (password : str) (salt : bytes) : outcome pyerror str :=
  password_bytes ← utf8_encode password;
  hashpw E password_bytes salt.

Definition verify_password (password hashed : str) : outcome pyerror bool :=
  password_bytes ← utf8_encode password;
  checkpw E password_bytes hashed.

(** [now] is the reading of [datetime.now(timezone.utc).timestamp()]. *)
Definition create_access_token (user_id : str) (now : Q) : str :=
  jwt_encode E (Payload.mk (Some user_id) (now + inject_Z (3600 * 24 * 7))%Q)
    (JWT_SECRET E).

(** [now] is the clock reading at which the library checks [exp]. *)
Definition get_current_user (credentials : str) (now : Q) : handler User.t :=
  match jwt_decode E credentials (JWT_SECRET E) now with
  | Returns payload =>
      match Payload.user_id payload with
      | Some (c :: s) =>
          user_data ← query (fun db => find_one (user_has_id (c :: s)) (users db));
          match user_data with
          | Some d => mret (User_of_doc d)
          | None => raise (HTTPException 401 (lit "User not found"))
          end
      | _ => raise (HTTPException 401 (lit "Invalid token"))
      end
  | Raises (ExpiredSignatureError _) =>
      raise (HTTPException 401 (lit "Token expired"))
  | Raises (InvalidTokenError _) =>
      raise (HTTPException 401 (lit "Invalid token"))
  | Raises e => raise (Unhandled e)
  end.

(** The body of the [try] of [process_uploaded_data]. *)
Definition process_uploaded_data_try (file_content : bytes) (file_type : str)
  : outcome pyerror Processed.t :=
  if decide (lower file_type = lit "csv") then
    df ← read_csv E file_content;
    let data := DataFrame.records df in
    mret (Processed.mk data (take 5 data)
            (length (DataFrame.columns df)) (length data))
  else if decide (lower file_type = lit "json") then
    text ← utf8_decode E file_content;
    data ← json_loads E text;
    match data with
    | PyList rows =>
        column_count ← match rows with
                        | [] => mret 0%nat
                        | first :: _ => len_keys first
                        end;
        mret (Processed.mk rows (take 5 rows) column_count (length rows))
    | _ =>
        column_count ← len_keys data;
        mret (Processed.mk [data] [data] column_count 1)
    end
  else if decide (lower file_type = lit "txt") then
    text_content ← utf8_decode E file_content;
    let lines := split newline text_content in
    let data := (fun line => PyDict {[ lit "text" := PyStr line ]})
                  <$> filter (fun line => str_truthy (strip line)) lines in
    mret (Processed.mk data (take 5 data) 1 (length data))
  else Raises (ValueError (lit "Unsupported file type: " ++ file_type)).

(** [except Exception as e]: every exception becomes a 400. *)
Definition process_uploaded_data (file_content : bytes) (file_type : str)
  : outcome exception Processed.t :=
  match process_uploaded_data_try file_content file_type with
  | Returns r => Returns r
  | Raises e =>
      Raises (HTTPException 400 (lit "Error processing file: " ++ pyerror_str e))
  end.

(** [new_id] is the [uuid4] of the new user, [now] its [created_at],
    [salt] the salt of the hash, [token_time] the clock when the token is
    made. *)
Definition register (user_data : UserCreate.t) (new_id : str) (now : Z)
  (salt : bytes) (token_time : Q) : handler AuthResponse.t :=
  existing_user ← query (fun db =>
    find_one (user_has_email (UserCreate.email user_data)) (users db));
  match existing_user with
  | Some _ => raise (HTTPException 400 (lit "Email already registered"))
  | None =>
      hashed_password ←
        call (hash_password (UserCreate.password user_data) salt);
      let user := User.mk new_id (UserCreate.email user_data)
                    (UserCreate.name user_data) now in
      write (set_users (insert_one (UserDoc_of user hashed_password)));;
      let access_token := create_access_token (User.id user) token_time in
      mret (AuthResponse.mk access_token user)
  end.

(** [verify_password] is outside any [try]: what it raises is not caught. *)
Definition login (credentials : UserLogin.t) (token_time : Q)
  : handler AuthResponse.t :=
  user_data ← query (fun db =>
    find_one (user_has_email (UserLogin.email credentials)) (users db));
  match user_data with
  | Some d =>
      verified ← call (verify_password (UserLogin.password credentials)
                         (UserDoc.password d));
      if verified : bool
      then
        let user := User_of_doc d in
        let access_token := create_access_token (User.id user) token_time in
        mret (AuthResponse.mk access_token user)
      else raise (HTTPException 401 (lit "Invalid email or password"))
  | None => raise (HTTPException 401 (lit "Invalid email or password"))
  end.

(** [new_id] and [now] are the [uuid4] and the [created_at] of the new
    dataset. *)
Definition upload_dataset (filename : str) (file_content : bytes) (name : str)
  (current_user : User.t) (new_id : str) (now : Z) : handler Dataset.t :=
  let file_extension := file_extension_of filename in
  if decide (file_extension ∈ allowed_types) then
    let file_size := length file_content in
    processed_data ← lift (process_uploaded_data file_content file_extension);
    data_preview ← call (validate_rows E (Processed.preview processed_data));
    let dataset :=
      Dataset.mk new_id name (User.id current_user) file_extension file_size
        data_preview (Processed.column_count processed_data)
        (Processed.row_count processed_data) now in
    write (set_datasets
             (insert_one (DatasetDoc_of dataset (Processed.data processed_data))));;
    mret dataset
  else
    raise (HTTPException 400
             (lit "File type not supported. Allowed: ['csv', 'json', 'txt']")).

(** The documents of a collection were written from validated models, so
    building the models back from them succeeds. *)
Definition get_datasets (current_user : User.t) : handler (list Dataset.t) :=
  datasets ← query (fun db =>
    to_list 1000 (find (dataset_of (User.id current_user)) (datasets db)));
  mret (Dataset_of_doc <$> datasets).

(** [new_id] is the [uuid4] of the training, [now] its [created_at] and
    [completed] the later reading stored in [completed_at]. *)
Definition train_model (dataset_id model_name custom_prompt : str)
  (current_user : User.t) (new_id : str) (now completed : Z)
  : handler ModelTraining.t :=
  dataset_data ← query (fun db =>
    find_one (dataset_is dataset_id (User.id current_user)) (datasets db));
  match dataset_data with
  | None => raise (HTTPException 404 (lit "Dataset not found"))
  | Some dataset_data =>
      training_data ←
        call (validate_rows E (take 100 (DatasetDoc.full_data dataset_data)));
      let training :=
        ModelTraining.mk new_id model_name (User.id current_user) dataset_id
          (lit "completed") (lit "gemini-2.0-flash") custom_prompt
          training_data now (Some completed) in
      write (set_model_trainings (insert_one training));;
      mret training
  end.

Definition get_models (current_user : User.t) : handler (list ModelTraining.t) :=
  query (fun db =>
    to_list 1000 (find (training_of (User.id current_user)) (model_trainings db))).

Definition test_model (model_id : str) (test_data : ModelTest.t)
  (current_user : User.t) : handler ModelTestResponse.t :=
  model_data ← query (fun db =>
    find_one (training_is model_id (User.id current_user)) (model_trainings db));
  match model_data with
  | None => raise (HTTPException 404 (lit "Model not found"))
  | Some model_data =>
      match GOOGLE_API_KEY E with
      | Some (c :: k) =>
          let chat :=
            LlmChat.mk (c :: k) (lit "test-" ++ model_id)
              (ModelTraining.custom_prompt model_data)
              (lit "gemini") (lit "gemini-2.0-flash") in
          match send_message E chat (ModelTest.input_text test_data) with
          | Returns response =>
              mret (ModelTestResponse.mk response (Qmake 95 100)
                      (Qmake (clock_end E - clock_start E) 1000000))
          | Raises e =>
              raise (HTTPException 500
                       (lit "Error testing model: " ++ pyerror_str e))
          end
      | _ => raise (HTTPException 500 (lit "Google API key not configured"))
      end
  end.

(** [new_id] and [now] are the [uuid4] and the [created_at] of the new
    deployment. *)
Definition deploy_model (model_id : str) (current_user : User.t)
  (new_id : str) (now : Z) : handler DeployedModel.t :=
  model_data ← query (fun db =>
    find_one (training_is model_id (User.id current_user)) (model_trainings db));
  match model_data with
  | None => raise (HTTPException 404 (lit "Model not found"))
  | Some model_data =>
      let deployment :=
        DeployedModel.mk new_id (ModelTraining.name model_data ++ lit "-api")
          (User.id current_user) model_id
          (lit "/models/" ++ model_id ++ lit "/predict") (lit "active") 0 now in
      write (set_deployed_models (insert_one deployment));;
      mret deployment
  end.

Definition get_deployed_models (current_user : User.t)
  : handler (list DeployedModel.t) :=
  query (fun db =>
    to_list 1000 (find (deployment_of (User.id current_user)) (deployed_models db))).

Definition predict (model_id : str) (test_data : ModelTest.t)
  (current_user : User.t) : handler ModelTestResponse.t :=
  write (set_deployed_models
           (update_one (deployment_for model_id (User.id current_user))
              inc_usage_count));;
  test_model model_id test_data current_user.

(** [sum(...)] adds from the left, starting at 0. *)
Definition get_dashboard_stats (current_user : User.t) : handler Stats.t :=
  datasets_count ← query (fun db =>
    count_documents (dataset_of (User.id current_user)) (datasets db));
  models_count ← query (fun db =>
    count_documents (training_of (User.id current_user)) (model_trainings db));
  deployed_count ← query (fun db =>
    count_documents (deployment_of (User.id current_user)) (deployed_models db));
  deployed_models ← query (fun db =>
    to_list 1000 (find (deployment_of (User.id current_user)) (deployed_models db)));
  let total_usage :=
    foldl Z.add 0 (DeployedModel.usage_count <$> deployed_models) in
  mret (Stats.mk datasets_count models_count deployed_count total_usage).

End Server.

(** ** The router

    A request is a registration, a login, or a call of a protected
    endpoint, which runs [get_current_user] on the bearer token first
    ([Depends(get_current_user)]).  The values the handlers draw from the
    clock and from [uuid4] travel with the request. *)

Inductive api_call :=
| UploadDataset (filename : str) (file_content : bytes) (name : str)
    (new_id : str) (now : Z)
| GetDatasets
| TrainModel (dataset_id model_name custom_prompt new_id : str)
    (now completed : Z)
| GetModels
| TestModel (model_id : str) (test_data : ModelTest.t)
| DeployModel (model_id new_id : str) (now : Z)
| GetDeployedModels
| Predict (model_id : str) (test_data : ModelTest.t)
| GetDashboardStats.

Inductive request :=
| Register (user_data : UserCreate.t) (new_id : str) (now : Z) (salt : bytes)
    (token_time : Q)
| Login (credentials : UserLogin.t) (token_time : Q)
| Authenticated (credentials : str) (auth_time : Q) (c : api_call).

Inductive response :=
| AuthBody (r : AuthResponse.t)
| DatasetBody (d : Dataset.t)
| DatasetsBody (l : list Dataset.t)
| TrainingBody (m : ModelTraining.t)
| TrainingsBody (l : list ModelTraining.t)
| TestBody (r : ModelTestResponse.t)
| DeploymentBody (d : DeployedModel.t)
| DeploymentsBody (l : list DeployedModel.t)
| StatsBody (s : Stats.t).

Definition run_call (E : externals) (c : api_call) (current_user : User.t)
  : handler response :=
  match c with
  | UploadDataset filename file_content name new_id now =>
      DatasetBody <$> upload_dataset E filename file_content name current_user
                        new_id now
  | GetDatasets => DatasetsBody <$> get_datasets current_user
  | TrainModel dataset_id model_name custom_prompt new_id now completed =>
      TrainingBody <$> train_model E dataset_id model_name custom_prompt
                         current_user new_id now completed
  | GetModels => TrainingsBody <$> get_models current_user
  | TestModel model_id test_data =>
      TestBody <$> test_model E model_id test_data current_user
  | DeployModel model_id new_id now =>
      DeploymentBody <$> deploy_model model_id current_user new_id now
  | GetDeployedModels => DeploymentsBody <$> get_deployed_models current_user
  | Predict model_id test_data =>
      TestBody <$> predict E model_id test_data current_user
  | GetDashboardStats => StatsBody <$> get_dashboard_stats current_user
  end.

Definition serve (E : externals) (req : request) : handler response :=
  match req with
  | Register user_data new_id now salt token_time =>
      AuthBody <$> register E user_data new_id now salt token_time
  | Login credentials token_time => AuthBody <$> login E credentials token_time
  | Authenticated credentials auth_time c =>
      current_user ← get_current_user E credentials auth_time;
      run_call E c current_user
  end.

(** ** Stores the API can produce *)

(** What the store invariants need from pydantic: validating a list of
    rows keeps their number. *)
Definition validation_keeps_length (E : externals) : Prop :=
  forall l l', validate_rows E l = Returns l' -> length l' = length l.

(** The stores reached from the empty one by serving requests one after
    another: each request runs to its end before the next begins. *)
Inductive reachable : DB -> Prop :=
| reachable_empty : reachable empty_db
| reachable_serve E req db :
    validation_keeps_length E -> reachable db ->
    reachable (snd (serve E req db)).

(** A dataset document without its [full_data]. *)
Definition without_full_data (d : DatasetDoc.t) : DatasetDoc.t :=
  DatasetDoc_of (Dataset_of_doc d) [].


(** The value whose [keys] the json branch asks for. *)
Definition keys_subject (v : pyval) : pyval :=
  match v with
  | PyList (first :: _) => first
  | _ => v
  end.

(** The detail of the 400 the json branch answers for a value without
    [keys]. *)
Definition no_keys_detail (v : pyval) : str :=
  lit "Error processing file: '" ++ type_name (keys_subject v)
    ++ lit "' object has no attribute 'keys'".

(** [api_calls] of the dashboard of a user. *)
Definition api_calls_of (uid : str) (db : DB) : Z :=
  foldl Z.add 0
    (DeployedModel.usage_count
       <$> to_list 1000 (find (deployment_of uid) (deployed_models db))).

(** A deployment with its counter set. *)
Definition with_usage_count (n : Z) (d : DeployedModel.t) : DeployedModel.t :=
  DeployedModel.mk (DeployedModel.id d) (DeployedModel.name d)
    (DeployedModel.user_id d) (DeployedModel.training_id d)
    (DeployedModel.api_endpoint d) (DeployedModel.status d) n
    (DeployedModel.created_at d).

(** ** A world to run the handlers in

    Stand-ins for the libraries, used to run the handlers on concrete
    requests.  A token is the expiry and the user identifier written out;
    the hash of a password is its first 72 bytes, as bcrypt 4 hashes no
    more than these; the json and csv readers know the documents listed
    below. *)

(** A literal with each apostrophe read as a double quote. *)
Definition dq (s : string) : str :=
  (fun c => if decide (c = 39%N) then 34%N else c) <$> lit s.

Definition ascii_bytes (s : str) : bytes :=
  (fun c => default Byte.x00 (Byte.of_N c)) <$> s.

Definition demo_jwt_encode (p : Payload.t) (key : str) : str :=
  (if Qnum (Payload.exp p) <? 0 then 1%N else 0%N)
    :: Z.to_N (Z.abs (Qnum (Payload.exp p)))
    :: N.pos (Qden (Payload.exp p))
    :: match Payload.user_id p with
       | Some u => 1%N :: u
       | None => [0%N]
       end.

(** The expiry check is PyJWT's: [int(payload["exp"]) <= now]. *)
Definition demo_jwt_decode (token key : str) (now : Q)
  : outcome pyerror Payload.t :=
  match token with
  | sign :: magnitude :: N.pos denominator :: tag :: rest =>
      let numerator := if decide (sign = 0%N) then Z.of_N magnitude
                       else - Z.of_N magnitude in
      let exp := Qmake numerator denominator in
      let user_id := if decide (tag = 0%N) then None else Some rest in
      if Qle_bool (inject_Z (py_int exp)) now
      then Raises (ExpiredSignatureError (lit "Signature has expired"))
      else Returns (Payload.mk user_id exp)
  | _ => Raises (InvalidTokenError (lit "Not enough segments"))
  end.

(** bcrypt 4: the bytes after the 72nd take no part in the hash. *)
Definition demo_hashpw (password salt : bytes) : outcome pyerror str :=
  Returns (Byte.to_N <$> take 72 password).

Definition demo_checkpw (password : bytes) (hashed : str)
  : outcome pyerror bool :=
  Returns (bool_decide (Byte.to_N <$> take 72 password = hashed)).




(** Lowering outside ASCII, for the capital letters of Latin-1 only. *)
Definition demo_unicode_lower (s : str) : str :=
  (fun c =>
     if ((192 <=? c) && (c <=? 222) && negb (c =? 215))%N then (c + 32)%N
     else lower_codepoint c) <$> s.

Definition demo_utf8_decode (b : bytes) : outcome pyerror str :=
  let text := Byte.to_N <$> b in
  if decide (Forall (fun c => (c < 128)%N) text) then Returns text
  else Raises (ValueError (lit "'utf-8' codec can't decode bytes")).

Definition json_three_rows : pyval :=
  PyList [PyDict {[ lit "a" := PyInt 1 ]}; PyDict {[ lit "a" := PyInt 2 ]};
          PyDict {[ lit "a" := PyInt 3 ]}].

Definition demo_json_documents : list (str * pyval) :=
  [ (dq "[{'a':1},{'a':2},{'a':3}]", json_three_rows);
    (dq "{'a':1,'b':2}",
     PyDict (<[ lit "b" := PyInt 2 ]> {[ lit "a" := PyInt 1 ]}));
    (lit "[]", PyList []);
    (lit "[1,2,3]", PyList [PyInt 1; PyInt 2; PyInt 3]);
    (lit "5", PyInt 5) ].

Definition demo_json_loads (text : str) : outcome pyerror pyval :=
  match (list_to_map demo_json_documents : gmap str pyval) !! text with
  | Some v => Returns v
  | None => Raises (ValueError (lit "Expecting value: line 1 column 1 (char 0)"))
  end.

(** The text of the spec's csv example: a header and two rows. *)
Definition csv_two_rows : str :=
  lit "name,age" ++ newline :: lit "A,1" ++ newline :: lit "B,2".

Definition demo_read_csv (b : bytes) : outcome pyerror DataFrame.t :=
  if decide (Byte.to_N <$> b = csv_two_rows)
  then Returns
         (DataFrame.mk [lit "name"; lit "age"]
            [PyDict (<[ lit "age" := PyInt 1 ]> {[ lit "name" := PyStr (lit "A") ]});
             PyDict (<[ lit "age" := PyInt 2 ]> {[ lit "name" := PyStr (lit "B") ]})])
  else Raises (OtherError (lit "Error tokenizing data")).

Definition demo_validate_rows (l : list pyval) : outcome pyerror (list pyval) :=
  if decide (Forall is_dict l) then Returns l
  else Raises (ValueError (lit "value is not a valid dict")).

Definition demo : externals :=
  {| JWT_SECRET := lit "your-secret-key-change-in-production";
     GOOGLE_API_KEY := Some (lit "key");
     jwt_encode := demo_jwt_encode;
     jwt_decode := demo_jwt_decode;
     hashpw := demo_hashpw;
     checkpw := demo_checkpw;
     unicode_lower := demo_unicode_lower;
     utf8_decode := demo_utf8_decode;
     json_loads := demo_json_loads;
     read_csv := demo_read_csv;
     validate_rows := demo_validate_rows;
     send_message := fun chat text => Returns (lit "reply to " ++ text);
     clock_start := 0;
     clock_end := 250000 |}.

(** The same world with [GOOGLE_API_KEY] unset. *)
Definition demo_no_key : externals :=
  {| JWT_SECRET := JWT_SECRET demo;
     GOOGLE_API_KEY := None;
     jwt_encode := jwt_encode demo;
     jwt_decode := jwt_decode demo;
     hashpw := hashpw demo;
     checkpw := checkpw demo;
     unicode_lower := unicode_lower demo;
     utf8_decode := utf8_decode demo;
     json_loads := json_loads demo;
     read_csv := read_csv demo;
     validate_rows := validate_rows demo;
     send_message := send_message demo;
     clock_start := clock_start demo;
     clock_end := clock_end demo |}.

Definition alice : User.t := User.mk (lit "u-alice") (lit "alice@example.com") (lit "Alice") 100.
Definition bob : User.t := User.mk (lit "u-bob") (lit "bob@example.com") (lit "Bob") 101.

Definition alice_doc : UserDoc.t := UserDoc_of alice (lit "wonderland").
Definition bob_doc : UserDoc.t := UserDoc_of bob (lit "builder").

(** A dataset and a model of Bob. *)
Definition bob_dataset : DatasetDoc.t :=
  DatasetDoc.mk (lit "ds-1") (lit "rows") (lit "u-bob") (lit "json") 25
    [PyDict {[ lit "a" := PyInt 1 ]}] 1 1 110 [PyDict {[ lit "a" := PyInt 1 ]}].

Definition bob_model : ModelTraining.t :=
  ModelTraining.mk (lit "m-1") (lit "helper") (lit "u-bob") (lit "ds-1")
    (lit "completed") (lit "gemini-2.0-flash") (lit "Be brief.")
    [PyDict {[ lit "a" := PyInt 1 ]}] 120 (Some 121).

Definition bob_deployment : DeployedModel.t :=
  DeployedModel.mk (lit "dep-1") (lit "helper-api") (lit "u-bob") (lit "m-1")
    (lit "/models/m-1/predict") (lit "active") 0 130.

(** Bob has a dataset and a model; nothing is deployed. *)
Definition db_trained : DB :=
  mkDB [alice_doc; bob_doc] [bob_dataset] [bob_model] [].

(** The same with the model deployed once. *)
Definition db_deployed : DB :=
  mkDB [alice_doc; bob_doc] [bob_dataset] [bob_model] [bob_deployment].

Definition hello : ModelTest.t := ModelTest.mk (lit "hello").

(** The store a failed request leaves: the store it found, except for a
    Predict that got past authentication, whose increment stays. *)
Definition store_after_failure (E : externals) (req : request) (db : DB) : DB :=
  match req with
  | Authenticated credentials auth_time (Predict model_id _) =>
      match fst (get_current_user E credentials auth_time db) with
      | Returns current_user =>
          set_deployed_models
            (update_one (deployment_for model_id (User.id current_user))
               inc_usage_count) db
      | Raises _ => db
      end
  | _ => db
  end.

(** Only the two users: no dataset, no model. *)
Definition db_users_only : DB := mkDB [alice_doc; bob_doc] [] [] [].

(** Bob's store with the given deployments. *)
Definition db_with_deployments (l : list DeployedModel.t) : DB :=
  mkDB [alice_doc; bob_doc] [bob_dataset] [bob_model] l.

(** A second deployment of the same model. *)
Definition bob_second_deployment : DeployedModel.t :=
  DeployedModel.mk (lit "dep-2") (lit "helper-api") (lit "u-bob") (lit "m-1")
    (lit "/models/m-1/predict") (lit "active") 0 140.

(** What the delegate of [demo] answers to [hello]. *)
Definition demo_reply : ModelTestResponse.t :=
  ModelTestResponse.mk (lit "reply to hello") (Qmake 95 100)
    (Qmake 250000 1000000).

Definition deployment_has_id (i : str) (d : DeployedModel.t) : Prop :=
  DeployedModel.id d = i.

#[global] Instance deployment_has_id_dec i d : Decision (deployment_has_id i d).
Proof. unfold deployment_has_id; apply _. Defined.

(** When a token expires: PyJWT compares [int(payload["exp"])] with the
    clock, so the fraction of [exp] does not count. *)
Definition expiry (p : Payload.t) : Q := inject_Z (py_int (Payload.exp p)).

(** What the proofs about tokens need from PyJWT: a token it signed
    decodes to its payload at every clock reading before [int(exp)], and
    is refused as expired at every reading from [int(exp)] on. *)
Definition jwt_accepts_before_exp (E : externals) : Prop :=
  forall p key now,
    (now < expiry p)%Q -> jwt_decode E (jwt_encode E p key) key now = Returns p.

Definition jwt_rejects_from_exp (E : externals) : Prop :=
  forall p key now,
    (expiry p <= now)%Q ->
    exists msg,
      jwt_decode E (jwt_encode E p key) key now
      = Raises (ExpiredSignatureError msg).

(** The text of the spec's txt example: two lines with a blank one
    between them. *)
Definition two_lines_text : str := lit "line1" ++ [newline; newline] ++ lit "line2".

(** The record a line of a txt upload becomes. *)
Definition text_record (line : str) : pyval := PyDict {[ lit "text" := PyStr line ]}.

(** The dataset an upload of the empty json list makes for Bob. *)
Definition empty_dataset : Dataset.t :=
  Dataset.mk (lit "ds-2") (lit "nothing") (lit "u-bob") (lit "json") 2 [] 0 0 150.

(** The passwords every version of bcrypt takes as they are: at most 72
    bytes, none of them zero.  Of a longer one bcrypt 4 hashes the first
    72 bytes and bcrypt 5 raises; bcrypt 3 raises for a zero byte. *)
Definition bcrypt_accepts (password : bytes) : Prop :=
  (length password <= 72)%nat /\ Byte.x00 ∉ password.

#[global] Instance bcrypt_accepts_dec password : Decision (bcrypt_accepts password).
Proof. unfold bcrypt_accepts; apply _. Defined.


(** A password whose encoding is such a sequence of bytes. *)
Definition fits_bcrypt (password : str) : Prop :=
  match utf8_encode password with
  | Returns password_bytes => bcrypt_accepts password_bytes
  | Raises _ => False
  end.

#[global] Instance fits_bcrypt_dec password : Decision (fits_bcrypt password).
Proof. unfold fits_bcrypt. destruct (utf8_encode password); apply _. Defined.






(** A third user, not yet registered. *)
Definition carol_request : UserCreate.t :=
  UserCreate.mk (lit "carol@example.com") (lit "sesame") (lit "Carol").

Definition carol : User.t :=
  User.mk (lit "u-carol") (lit "carol@example.com") (lit "Carol") 300.

(** The store after Carol has registered in [db_trained]. *)
Definition db_with_carol : DB :=
  set_users (insert_one (UserDoc_of carol (lit "sesame"))) db_trained.

(** Every stored dataset has a preview of at most 5 rows. *)
Definition previews_bounded (db : DB) : Prop :=
  Forall (fun d => (length (DatasetDoc.data_preview d) <= 5)%nat) (datasets db).

(** The store after Bob has uploaded the three rows of the json example. *)
Definition three_rows_upload : api_call :=
  UploadDataset (lit "rows.json") (ascii_bytes (dq "[{'a':1},{'a':2},{'a':3}]"))
    (lit "three rows") (lit "ds-3") 400.

Definition bob_token : str := create_access_token demo (lit "u-bob") 350.

Definition db_bob_registered : DB :=
  snd (serve demo
         (Register (UserCreate.mk (lit "bob@example.com") (lit "builder") (lit "Bob"))
            (lit "u-bob") 101 (ascii_bytes (lit "salt")) 102)
         empty_db).

Definition db_bob_uploaded : DB :=
  snd (serve demo (Authenticated bob_token 400 three_rows_upload) db_bob_registered).

(** The dataset the upload of the three rows returns to Bob. *)
Definition three_rows_dataset : Dataset.t :=
  Dataset.mk (lit "ds-3") (lit "three rows") (lit "u-bob") (lit "json")
    (length (ascii_bytes (dq "[{'a':1},{'a':2},{'a':3}]")))
    [PyDict {[ lit "a" := PyInt 1 ]}; PyDict {[ lit "a" := PyInt 2 ]};
     PyDict {[ lit "a" := PyInt 3 ]}] 1 3 400.

(** The chat [test_model] opens for a model: the key of the
    configuration, a session named after the model, the prompt stored
    with the model as system message. *)
Definition chat_for (key model_id : str) (m : ModelTraining.t) : LlmChat.t :=
  LlmChat.mk key (lit "test-" ++ model_id) (ModelTraining.custom_prompt m)
    (lit "gemini") (lit "gemini-2.0-flash").

(** The model Bob trains on his three rows. *)
Definition bob_training : ModelTraining.t :=
  ModelTraining.mk (lit "m-3") (lit "rows model") (lit "u-bob") (lit "ds-3")
    (lit "completed") (lit "gemini-2.0-flash") (lit "Answer in one word.")
    [PyDict {[ lit "a" := PyInt 1 ]}; PyDict {[ lit "a" := PyInt 2 ]};
     PyDict {[ lit "a" := PyInt 3 ]}] 410 (Some 411).

Definition db_bob_trained : DB :=
  set_model_trainings (insert_one bob_training) db_bob_uploaded.

(** The requests whose handler has no [insert_one] and no [update_one]. *)
Definition read_only (req : request) : bool :=
  match req with
  | Login _ _ => true
  | Authenticated _ _ (GetDatasets | GetModels | TestModel _ _
                      | GetDeployedModels | GetDashboardStats) => true
  | _ => false
  end.

(** A deployment and what it may have become later: the same record with
    a counter that is not smaller. *)
Definition counted_on (d d' : DeployedModel.t) : Prop :=
  d' = with_usage_count (DeployedModel.usage_count d') d
  /\ DeployedModel.usage_count d <= DeployedModel.usage_count d'.

(** The caller a request runs as, when it is authenticated. *)
Definition caller_of (E : externals) (req : request) (db : DB) : option User.t :=
  match req with
  | Authenticated credentials auth_time _ =>
      match fst (get_current_user E credentials auth_time db) with
      | Returns u => Some u
      | Raises _ => None
      end
  | _ => None
  end.

(** What a successful call adds to the three counts of the dashboard. *)
Definition counts_added (c : api_call) : nat * nat * nat :=
  match c with
  | UploadDataset _ _ _ _ _ => (1, 0, 0)%nat
  | TrainModel _ _ _ _ _ _ => (0, 1, 0)%nat
  | DeployModel _ _ _ => (0, 0, 1)%nat
  | _ => (0, 0, 0)%nat
  end.

(** The sum the dashboard makes of a list of deployments. *)
Definition total_usage (l : list DeployedModel.t) : Z :=
  foldl Z.add 0 (DeployedModel.usage_count <$> l).

(** ** What the stores the API produces have in common *)

(** No two stored users have the same email. *)
Definition emails_unique (db : DB) : Prop := NoDup (UserDoc.email <$> users db).

(** The identifier belongs to a stored user. *)
Definition stored_user (db : DB) (uid : str) : Prop :=
  uid ∈ (UserDoc.id <$> users db).

(** A model refers to a stored dataset of its owner. *)
Definition training_refers (db : DB) (t : ModelTraining.t) : Prop :=
  exists ds,
    ds ∈ datasets db
    /\ DatasetDoc.id ds = ModelTraining.dataset_id t
    /\ DatasetDoc.user_id ds = ModelTraining.user_id t.

(** A deployment refers to a stored model of its owner and has a counter
    that is not negative. *)
Definition deployment_refers (db : DB) (d : DeployedModel.t) : Prop :=
  0 <= DeployedModel.usage_count d
  /\ exists t,
       t ∈ model_trainings db
       /\ ModelTraining.id t = DeployedModel.training_id d
       /\ ModelTraining.user_id t = DeployedModel.user_id d.

Record consistent (db : DB) : Prop := Consistent
  { users_emails : emails_unique db;
    datasets_owned :
      Forall (fun ds => stored_user db (DatasetDoc.user_id ds)) (datasets db);
    trainings_refer : Forall (training_refers db) (model_trainings db);
    deployments_refer : Forall (deployment_refers db) (deployed_models db) }.

(** Bob's store after he has trained a model on his three rows and
    deployed it, each through the router. *)
Definition db_bob_served : DB :=
  snd (serve demo
         (Authenticated bob_token 420 (DeployModel (lit "m-3") (lit "dep-3") 420))
         (snd (serve demo
                 (Authenticated bob_token 410
                    (TrainModel (lit "ds-3") (lit "rows model")
                       (lit "Answer in one word.") (lit "m-3") 410 411))
                 db_bob_uploaded))).

(** Alice registers after Bob, and then tries once more. *)
Definition alice_request : UserCreate.t :=
  UserCreate.mk (lit "alice@example.com") (lit "wonderland") (lit "Alice").

Definition db_two_registered : DB :=
  snd (serve demo
         (Register alice_request (lit "u-alice") 100 (ascii_bytes (lit "salt")) 103)
         db_bob_registered).

Definition db_after_duplicate : DB :=
  snd (serve demo
         (Register alice_request (lit "u-alice-2") 104 (ascii_bytes (lit "salt"))
            105)
         db_two_registered).

(** ** Registrations that overlap

    [register] awaits the store twice: for [find_one], and for
    [insert_one].  While it waits another request can run, so the store
    it inserts into need not be the one it looked the email up in. *)

(** Up to the first [await]: the lookup. *)
Definition register_lookup (user_data : UserCreate.t) (db : DB)
  : option UserDoc.t :=
  find_one (user_has_email (UserCreate.email user_data)) (users db).

(** From the answer of the lookup on. *)
Definition register_after_lookup (E : externals) (user_data : UserCreate.t)
  (new_id : str) (now : Z) (salt : bytes) (token_time : Q)
  (existing_user : option UserDoc.t) : handler AuthResponse.t :=
  match existing_user with
  | Some _ => raise (HTTPException 400 (lit "Email already registered"))
  | None =>
      hashed_password ←
        call (hash_password E (UserCreate.password user_data) salt);
      let user := User.mk new_id (UserCreate.email user_data)
                    (UserCreate.name user_data) now in
      write (set_users (insert_one (UserDoc_of user hashed_password)));;
      let access_token := create_access_token E (User.id user) token_time in
      mret (AuthResponse.mk access_token user)
  end.

(** The statuses of the [HTTPException]s the handler of a call raises. *)
Definition call_statuses (c : api_call) : list Z :=
  match c with
  | UploadDataset _ _ _ _ _ => [400]
  | TrainModel _ _ _ _ _ _ => [404]
  | TestModel _ _ | Predict _ _ => [404; 500]
  | DeployModel _ _ _ => [404]
  | GetDatasets | GetModels | GetDeployedModels | GetDashboardStats => []
  end.

(** The statuses of the [HTTPException]s a request can be answered with. *)
Definition request_statuses (req : request) : list Z :=
  match req with
  | Register _ _ _ _ _ => [400]
  | Login _ _ => [401]
  | Authenticated _ _ c => 401 :: call_statuses c
  end.

(** * Properties *)

(** ** The functions on concrete inputs *)

Example split_keeps_empty_pieces :
  split dot (lit "a..b.") = [lit "a"; []; lit "b"; []].
Proof. by vm_compute. Qed.

Example strip_both_ends : strip (lit "  a b ") = lit "a b".
Proof. by vm_compute. Qed.

Example extension_is_lowered E :
  file_extension_of E (lit "Data.v2.JSON") = lit "json".
Proof. by vm_compute. Qed.

Example no_dot_no_extension E : file_extension_of E (lit "README") = [].
Proof. by vm_compute. Qed.

Example csv_two_rows_processed :
  match process_uploaded_data demo (ascii_bytes csv_two_rows) (lit "csv") with
  | Returns r =>
      Processed.row_count r = 2%nat /\ Processed.column_count r = 2%nat
      /\ Processed.preview r = Processed.data r
  | Raises _ => False
  end.
Proof. by vm_compute. Qed.

Example unsupported_type_is_400 :
  process_uploaded_data demo [] (lit "pdf")
  = Raises (HTTPException 400
              (lit "Error processing file: Unsupported file type: pdf")).
Proof. by vm_compute. Qed.

Example dashboard_of_bob :
  fst (get_dashboard_stats bob db_deployed) = Returns (Stats.mk 1 1 1 0).
Proof. by vm_compute. Qed.

(** ** Collections *)

Section CollectionFacts.
Context {A : Type} (P : A -> Prop) `{Pdec : !forall x, Decision (P x)}.

Lemma find_one_None (l : list A) :
  find_one P l = None <-> Forall (fun x => ~ P x) l.
Proof.
  unfold find_one. induction l as [|x l IH]; simpl.
  - split; [constructor | done].
  - rewrite filter_cons. destruct (decide (P x)) as [HP|HP]; simpl.
    + split; [done | inversion 1; done].
    + rewrite IH. split; [by constructor | by inversion 1].
Qed.

Lemma find_one_Some (l : list A) (x : A) :
  find_one P l = Some x ->
  P x /\ exists before after,
    l = before ++ x :: after /\ Forall (fun y => ~ P y) before.
Proof.
  unfold find_one. induction l as [|y l IH]; simpl; [done|].
  rewrite filter_cons. destruct (decide (P y)) as [HP|HP]; simpl.
  - intros [= ->]. split; [done|]. exists [], l. by split.
  - intros H. destruct (IH H) as (Hx & before & after & -> & Hb).
    split; [done|]. exists (y :: before), after. split; [done|by constructor].
Qed.

Lemma find_one_first (before after : list A) (x : A) :
  Forall (fun y => ~ P y) before -> P x ->
  find_one P (before ++ x :: after) = Some x.
Proof.
  unfold find_one. induction 1 as [|y l Hy _ IH]; intros HP; simpl.
  - rewrite filter_cons. by destruct (decide (P x)).
  - rewrite filter_cons. destruct (decide (P y)); [done | by apply IH].
Qed.

Lemma find_one_app_Some (l l' : list A) (x : A) :
  find_one P l = Some x -> find_one P (l ++ l') = Some x.
Proof.
  intros H. destruct (find_one_Some _ _ H) as (Hx & before & after & -> & Hb).
  rewrite <- app_assoc. simpl. by apply find_one_first.
Qed.

Lemma find_one_app_None (l l' : list A) :
  find_one P l = None -> find_one P (l ++ l') = find_one P l'.
Proof.
  unfold find_one. intros H. rewrite filter_app.
  destruct (filter P l); [done | discriminate].
Qed.

Lemma update_one_first (f : A -> A) (before after : list A) (x : A) :
  Forall (fun y => ~ P y) before -> P x ->
  update_one P f (before ++ x :: after) = before ++ f x :: after.
Proof.
  induction 1 as [|y l Hy _ IH]; intros HP; simpl.
  - by destruct (decide (P x)).
  - destruct (decide (P y)); [done | by rewrite IH].
Qed.

Lemma update_one_None (f : A -> A) (l : list A) :
  find_one P l = None -> update_one P f l = l.
Proof.
  rewrite find_one_None. induction 1 as [|y l Hy _ IH]; simpl; [done|].
  destruct (decide (P y)); [done | by rewrite IH].
Qed.

End CollectionFacts.

(** ** Running handlers *)

Ltac step :=
  unfold mbind, handler_bind, mret, handler_ret, fmap, handler_fmap,
    query, write, raise, call, lift, outcome_bind, outcome_ret;
  cbn [fst snd].

(** Case analysis on an innermost scrutinee of the goal. *)
Ltac case_match_goal :=
  match goal with
  | |- context [match ?x with _ => _ end] =>
      lazymatch x with
      | context [match _ with _ => _ end] => fail
      | _ => destruct x eqn:?
      end
  end.

Ltac run := repeat (step; try case_match_goal).

Lemma get_current_user_store E credentials now db :
  snd (get_current_user E credentials now db) = db.
Proof.
  unfold get_current_user. run; reflexivity.
Qed.

Lemma test_model_store E model_id test_data current_user db :
  snd (test_model E model_id test_data current_user db) = db.
Proof.
  unfold test_model. run; reflexivity.
Qed.

Lemma test_model_reads_trainings E model_id test_data current_user db db' :
  model_trainings db = model_trainings db' ->
  fst (test_model E model_id test_data current_user db)
  = fst (test_model E model_id test_data current_user db').
Proof.
  intros H. unfold test_model. step. rewrite H. run; reflexivity.
Qed.

(** ** Predict *)

(** C1, as the code has it: Predict asks for no deployment.  Its answer
    is the answer of Test on the same store, it is the 404 of Test exactly
    when the caller owns no model of that identifier, and the store it
    leaves has the counter of the first deployment of that model and
    caller raised by one, or is unchanged when there is none. *)
Theorem predict_counts_then_tests E model_id test_data current_user db :
  let P := deployment_for model_id (User.id current_user) in
  let run := predict E model_id test_data current_user db in
  fst run = fst (test_model E model_id test_data current_user db)
  /\ (fst run = Raises (HTTPException 404 (lit "Model not found"))
      <-> find_one (training_is model_id (User.id current_user))
            (model_trainings db) = None)
  /\ match find_one P (deployed_models db) with
     | None => snd run = db
     | Some d =>
         exists before after,
           deployed_models db = before ++ d :: after
           /\ Forall (fun x => ~ P x) before
           /\ snd run
              = set_deployed_models
                  (fun _ => before ++ inc_usage_count d :: after) db
     end.
Proof.
  intros P r. subst r.
  set (db' := set_deployed_models (update_one P inc_usage_count) db).
  assert (Hrun : predict E model_id test_data current_user db
                 = test_model E model_id test_data current_user db')
    by reflexivity.
  rewrite Hrun. split; [|split].
  - by apply test_model_reads_trainings.
  - rewrite (test_model_reads_trainings E _ _ _ db' db) by reflexivity.
    unfold test_model. step.
    destruct (find_one _ (model_trainings db)) as [m|]; [|done].
    split; [|discriminate]. run; congruence.
  - rewrite test_model_store.
    destruct (find_one P (deployed_models db)) as [d|] eqn:Hd.
    + destruct (find_one_Some _ _ _ Hd) as (HP & before & after & Hl & Hb).
      exists before, after. repeat split; [done..|].
      unfold db', set_deployed_models. rewrite Hl.
      by rewrite update_one_first.
    + unfold db', set_deployed_models. rewrite update_one_None by done.
      by destruct db.
Qed.

(** C1, the claim as stated fails: Bob's model is not deployed, and
    Predict answers with the reply of the delegate instead of a 404. *)
Lemma predict_undeployed_model_answers :
  ~ (find_one (deployment_for (lit "m-1") (User.id bob))
       (deployed_models db_trained) = None ->
     exists detail,
       fst (predict demo (lit "m-1") hello bob db_trained)
       = Raises (HTTPException 404 detail)).
Proof.
  intros H. destruct H as [detail H]; [by vm_compute|].
  vm_compute in H. discriminate H.
Qed.

(** ** Failed requests *)

Lemma run_call_failure E c current_user db e :
  fst (run_call E c current_user db) = Raises e ->
  snd (run_call E c current_user db)
  = match c with
    | Predict model_id _ =>
        set_deployed_models
          (update_one (deployment_for model_id (User.id current_user))
             inc_usage_count) db
    | _ => db
    end.
Proof.
  destruct c; unfold run_call, upload_dataset, get_datasets, train_model,
    get_models, predict, test_model, deploy_model, get_deployed_models,
    get_dashboard_stats, process_uploaded_data;
    run; try discriminate; reflexivity.
Qed.

(** C2, as the code has it: a request that fails leaves the store as it
    found it, except a Predict that fails after authentication: its store
    keeps the increment of the counter made before the failure, and
    differs from the one it found in nothing else. *)
Theorem failed_request_store E req db e :
  fst (serve E req db) = Raises e ->
  snd (serve E req db) = store_after_failure E req db.
Proof.
  destruct req as [ud i now salt tt | cr tt | tok t c];
    unfold serve, store_after_failure.
  - unfold register. run; try discriminate; reflexivity.
  - unfold login. run; try discriminate; reflexivity.
  - step. pose proof (get_current_user_store E tok t db) as Hs.
    destruct (get_current_user E tok t db) as [[u|e'] db'];
      cbn [fst snd] in *; subst db'.
    + intros H. rewrite (run_call_failure _ _ _ _ _ H). by destruct c.
    + intros _. by destruct c.
Qed.

(** C2, the claim as stated fails: with the inference key unset Predict
    answers 500, and the counter of Bob's deployment has gone from 0 to 1. *)
Lemma failed_predict_keeps_increment :
  let run := predict demo_no_key (lit "m-1") hello bob db_deployed in
  fst run = Raises (HTTPException 500 (lit "Google API key not configured"))
  /\ DeployedModel.usage_count <$> deployed_models db_deployed = [0]
  /\ DeployedModel.usage_count <$> deployed_models (snd run) = [1]
  /\ snd run <> db_deployed.
Proof.
  split; [by vm_compute|]. split; [by vm_compute|]. split; [by vm_compute|].
  intros H. apply (f_equal deployed_models) in H. vm_compute in H.
  discriminate H.
Qed.

Lemma failed_request_store_witness :
  let req := Authenticated (create_access_token demo (lit "u-bob") 1000) 2000
               (TestModel (lit "m-9") hello) in
  fst (serve demo req db_deployed)
  = Raises (HTTPException 404 (lit "Model not found"))
  /\ snd (serve demo req db_deployed) = store_after_failure demo req db_deployed.
Proof.
  intros req. assert (H : fst (serve demo req db_deployed)
    = Raises (HTTPException 404 (lit "Model not found"))) by (by vm_compute).
  split; [exact H | exact (failed_request_store demo req db_deployed _ H)].
Defined.

(** ** Records of other users *)

Ltac decide_closed :=
  match goal with
  | |- ?P => apply (@bool_decide_unpack P _); vm_compute; exact I
  end.

Lemma dataset_is_absent (i uid : str) (l : list DatasetDoc.t) :
  Forall (fun d => DatasetDoc.id d = i -> DatasetDoc.user_id d <> uid) l ->
  find_one (dataset_is i uid) l = None.
Proof.
  intros H. apply find_one_None. eapply Forall_impl; [exact H|].
  intros d Hd [Hi Hu]. by apply Hd.
Qed.

Lemma training_is_absent (i uid : str) (l : list ModelTraining.t) :
  Forall (fun m => ModelTraining.id m = i -> ModelTraining.user_id m <> uid) l ->
  find_one (training_is i uid) l = None.
Proof.
  intros H. apply find_one_None. eapply Forall_impl; [exact H|].
  intros m Hm [Hi Hu]. by apply Hm.
Qed.

(** C3: a record of another user looks absent.  In a store where no
    record has the identifier, and in a store where records have it but
    none of them belongs to the caller, Train model, Test model and
    Deploy model raise the same 404 with the same detail, and leave the
    store as it was. *)
Theorem foreign_record_looks_absent E current_user dataset_id model_id
    model_name custom_prompt new_id now completed test_data
    db_absent db_foreign :
  Forall (fun d => DatasetDoc.id d <> dataset_id) (datasets db_absent) ->
  Forall (fun m => ModelTraining.id m <> model_id) (model_trainings db_absent) ->
  Exists (fun d => DatasetDoc.id d = dataset_id) (datasets db_foreign) ->
  Forall (fun d => DatasetDoc.id d = dataset_id ->
                   DatasetDoc.user_id d <> User.id current_user)
    (datasets db_foreign) ->
  Exists (fun m => ModelTraining.id m = model_id) (model_trainings db_foreign) ->
  Forall (fun m => ModelTraining.id m = model_id ->
                   ModelTraining.user_id m <> User.id current_user)
    (model_trainings db_foreign) ->
  let train := train_model E dataset_id model_name custom_prompt current_user
                 new_id now completed in
  let test := test_model E model_id test_data current_user in
  let deploy := deploy_model model_id current_user new_id now in
  (train db_absent = (Raises (HTTPException 404 (lit "Dataset not found")), db_absent)
   /\ train db_foreign
      = (Raises (HTTPException 404 (lit "Dataset not found")), db_foreign))
  /\ (test db_absent = (Raises (HTTPException 404 (lit "Model not found")), db_absent)
      /\ test db_foreign
         = (Raises (HTTPException 404 (lit "Model not found")), db_foreign))
  /\ (deploy db_absent = (Raises (HTTPException 404 (lit "Model not found")), db_absent)
      /\ deploy db_foreign
         = (Raises (HTTPException 404 (lit "Model not found")), db_foreign)).
Proof.
  intros Hda Hma _ Hdf _ Hmf train test deploy.
  assert (Hda' : find_one (dataset_is dataset_id (User.id current_user))
                   (datasets db_absent) = None).
  { apply dataset_is_absent. eapply Forall_impl; [exact Hda|]. by intros d Hd ?. }
  assert (Hma' : find_one (training_is model_id (User.id current_user))
                   (model_trainings db_absent) = None).
  { apply training_is_absent. eapply Forall_impl; [exact Hma|]. by intros m Hm ?. }
  pose proof (dataset_is_absent _ _ _ Hdf) as Hdf'.
  pose proof (training_is_absent _ _ _ Hmf) as Hmf'.
  subst train test deploy. unfold train_model, test_model, deploy_model. step.
  rewrite Hda', Hma', Hdf', Hmf'. done.
Qed.

Lemma foreign_record_looks_absent_witness :
  let train := train_model demo (lit "ds-1") (lit "mine") (lit "Be kind.") alice
                 (lit "m-2") 200 201 in
  let test := test_model demo (lit "m-1") hello alice in
  let deploy := deploy_model (lit "m-1") alice (lit "m-2") 200 in
  (train db_users_only
   = (Raises (HTTPException 404 (lit "Dataset not found")), db_users_only)
   /\ train db_trained
      = (Raises (HTTPException 404 (lit "Dataset not found")), db_trained))
  /\ (test db_users_only
      = (Raises (HTTPException 404 (lit "Model not found")), db_users_only)
      /\ test db_trained
         = (Raises (HTTPException 404 (lit "Model not found")), db_trained))
  /\ (deploy db_users_only
      = (Raises (HTTPException 404 (lit "Model not found")), db_users_only)
      /\ deploy db_trained
         = (Raises (HTTPException 404 (lit "Model not found")), db_trained)).
Proof.
  apply (foreign_record_looks_absent demo alice (lit "ds-1") (lit "m-1")
           (lit "mine") (lit "Be kind.") (lit "m-2") 200 201 hello
           db_users_only db_trained); decide_closed.
Defined.

(** ** Usage counters *)

Lemma predict_store E model_id test_data current_user db :
  snd (predict E model_id test_data current_user db)
  = set_deployed_models
      (update_one (deployment_for model_id (User.id current_user))
         inc_usage_count) db.
Proof.
  change (predict E model_id test_data current_user db)
    with (test_model E model_id test_data current_user
            (set_deployed_models
               (update_one (deployment_for model_id (User.id current_user))
                  inc_usage_count) db)).
  apply test_model_store.
Qed.

Lemma deploy_model_returns model_id current_user new_id now db dep db1 :
  deploy_model model_id current_user new_id now db = (Returns dep, db1) ->
  DeployedModel.usage_count dep = 0
  /\ deployment_for model_id (User.id current_user) dep
  /\ db1 = set_deployed_models (insert_one dep) db.
Proof.
  unfold deploy_model. step.
  destruct (find_one _ (model_trainings db)) as [m|]; [|discriminate].
  intros [= <- <-]. by repeat split.
Qed.

Lemma foldl_add_usage (l : list DeployedModel.t) (d : DeployedModel.t) :
  foldl Z.add 0 (DeployedModel.usage_count <$> (l ++ [d]))
  = foldl Z.add 0 (DeployedModel.usage_count <$> l) + DeployedModel.usage_count d.
Proof. by rewrite fmap_app, foldl_app. Qed.

(** C4, as the code has it: when the deployment is the caller's first of
    that model, two successful Predict calls leave it in the store with
    [usage_count] 2; and when the caller has fewer than 1000 deployments
    the [api_calls] of the dashboard has grown by 2. *)
Theorem first_deployment_counts_two E1 E2 model_id test_data1 test_data2
    current_user new_id now db dep db1 r1 db2 r2 db3 :
  find_one (deployment_for model_id (User.id current_user))
    (deployed_models db) = None ->
  deploy_model model_id current_user new_id now db = (Returns dep, db1) ->
  predict E1 model_id test_data1 current_user db1 = (Returns r1, db2) ->
  predict E2 model_id test_data2 current_user db2 = (Returns r2, db3) ->
  DeployedModel.usage_count dep = 0
  /\ deployed_models db3 = deployed_models db ++ [with_usage_count 2 dep]
  /\ exists s s3,
       get_dashboard_stats current_user db = (Returns s, db)
       /\ get_dashboard_stats current_user db3 = (Returns s3, db3)
       /\ Stats.api_calls s = api_calls_of (User.id current_user) db
       /\ Stats.api_calls s3 = api_calls_of (User.id current_user) db3
       /\ ((count_documents (deployment_of (User.id current_user))
              (deployed_models db) < 1000)%nat ->
           Stats.api_calls s3 = Stats.api_calls s + 2).
Proof.
  intros Hnone Hdep Hp1 Hp2.
  destruct (deploy_model_returns _ _ _ _ _ _ _ Hdep) as (H0 & HP & ->).
  pose proof (predict_store E1 model_id test_data1 current_user
                (set_deployed_models (insert_one dep) db)) as Hs1.
  rewrite Hp1 in Hs1. cbn [snd] in Hs1. subst db2.
  pose proof (predict_store E2 model_id test_data2 current_user) as Hs2.
  specialize (Hs2 (set_deployed_models
    (update_one (deployment_for model_id (User.id current_user)) inc_usage_count)
    (set_deployed_models (insert_one dep) db))).
  rewrite Hp2 in Hs2. cbn [snd] in Hs2. subst db3.
  assert (Hfinal :
    update_one (deployment_for model_id (User.id current_user)) inc_usage_count
      (update_one (deployment_for model_id (User.id current_user)) inc_usage_count
         (insert_one dep (deployed_models db)))
    = deployed_models db ++ [with_usage_count 2 dep]).
  { unfold insert_one. apply find_one_None in Hnone.
    rewrite update_one_first by done.
    rewrite update_one_first by (done || by destruct dep, HP).
    destruct dep. unfold inc_usage_count, with_usage_count. cbn in *.
    by rewrite H0. }
  split; [done|]. split; [exact Hfinal|].
  eexists _, _. split; [reflexivity|]. split; [reflexivity|].
  split; [reflexivity|]. split; [reflexivity|].
  intros Hlt. cbn [Stats.api_calls]. unfold set_deployed_models.
  cbn [deployed_models]. rewrite Hfinal.
  unfold count_documents in Hlt. unfold to_list, find.
  rewrite filter_app, filter_cons_True by (by destruct dep, HP).
  rewrite filter_nil.
  rewrite (take_ge (filter _ (deployed_models db))) by lia.
  rewrite take_ge by (rewrite length_app; cbn; lia).
  by rewrite foldl_add_usage.
Qed.

Lemma first_deployment_counts_two_witness :
  DeployedModel.usage_count bob_deployment = 0
  /\ deployed_models (db_with_deployments [with_usage_count 2 bob_deployment])
     = deployed_models db_trained ++ [with_usage_count 2 bob_deployment]
  /\ exists s s3,
       get_dashboard_stats bob db_trained = (Returns s, db_trained)
       /\ get_dashboard_stats bob
            (db_with_deployments [with_usage_count 2 bob_deployment])
          = (Returns s3, db_with_deployments [with_usage_count 2 bob_deployment])
       /\ Stats.api_calls s = api_calls_of (User.id bob) db_trained
       /\ Stats.api_calls s3
          = api_calls_of (User.id bob)
              (db_with_deployments [with_usage_count 2 bob_deployment])
       /\ ((count_documents (deployment_of (User.id bob))
              (deployed_models db_trained) < 1000)%nat ->
           Stats.api_calls s3 = Stats.api_calls s + 2).
Proof.
  apply (first_deployment_counts_two demo demo (lit "m-1") hello hello bob
           (lit "dep-1") 130 db_trained bob_deployment
           (db_with_deployments [bob_deployment])
           demo_reply (db_with_deployments [with_usage_count 1 bob_deployment])
           demo_reply); by vm_compute.
Defined.

(** C4, the claim as stated fails: Bob deploys the model a second time
    and calls Predict twice, both calls succeed, and the new deployment
    still has [usage_count] 0; the two calls were counted on the first
    deployment. *)
Lemma second_deployment_stays_at_zero :
  let db1 := db_with_deployments [bob_deployment; bob_second_deployment] in
  let db2 := db_with_deployments
               [with_usage_count 1 bob_deployment; bob_second_deployment] in
  let db3 := db_with_deployments
               [with_usage_count 2 bob_deployment; bob_second_deployment] in
  deploy_model (lit "m-1") bob (lit "dep-2") 140 db_deployed
  = (Returns bob_second_deployment, db1)
  /\ DeployedModel.usage_count bob_second_deployment = 0
  /\ predict demo (lit "m-1") hello bob db1 = (Returns demo_reply, db2)
  /\ predict demo (lit "m-1") hello bob db2 = (Returns demo_reply, db3)
  /\ find_one (deployment_has_id (lit "dep-2")) (deployed_models db3)
     = Some bob_second_deployment
  /\ DeployedModel.usage_count bob_second_deployment <> 2.
Proof.
  intros db1 db2 db3.
  split; [by vm_compute|]. split; [by vm_compute|]. split; [by vm_compute|].
  split; [by vm_compute|]. split; [by vm_compute|]. by vm_compute.
Qed.

(** ** Tokens *)

(** [int] drops less than one, and of a float that is not negative it
    drops downwards. *)
Lemma py_int_above x : (x - 1 < inject_Z (py_int x))%Q.
Proof.
  destruct x as [n d]. unfold py_int, Qlt. cbn.
  Z.to_euclidean_division_equations. nia.
Qed.

Lemma py_int_below x : (0 <= x)%Q -> (inject_Z (py_int x) <= x)%Q.
Proof.
  destruct x as [n d]. unfold py_int, Qle. cbn.
  Z.to_euclidean_division_equations. nia.
Qed.

Lemma demo_jwt_decode_encode p key now :
  demo_jwt_decode (demo_jwt_encode p key) key now
  = if Qle_bool (expiry p) now
    then Raises (ExpiredSignatureError (lit "Signature has expired"))
    else Returns p.
Proof.
  destruct p as [uid [n d]]. unfold demo_jwt_encode, demo_jwt_decode, expiry.
  cbn [Payload.exp Payload.user_id Qnum Qden].
  assert (Hneg : n < 0 -> - Z.of_N (Z.to_N (Z.abs n)) = n)
    by (intros; rewrite Z2N.id; lia).
  assert (Hpos : 0 <= n -> Z.of_N (Z.to_N (Z.abs n)) = n)
    by (intros; rewrite Z2N.id; lia).
  destruct uid as [u|]; cbv beta iota zeta;
    destruct (Z.ltb_spec n 0); repeat case_decide; try done;
    rewrite ?Hneg, ?Hpos by done; by destruct (Qle_bool _ now).
Qed.

Lemma demo_jwt_accepts : jwt_accepts_before_exp demo.
Proof.
  intros p key now H. cbn [demo jwt_decode jwt_encode].
  rewrite demo_jwt_decode_encode.
  destruct (Qle_bool (expiry p) now) eqn:Hle; [|done].
  apply Qle_bool_iff in Hle. by apply Qle_not_lt in Hle.
Qed.

Lemma demo_jwt_rejects : jwt_rejects_from_exp demo.
Proof.
  intros p key now H. cbn [demo jwt_decode jwt_encode].
  rewrite demo_jwt_decode_encode.
  apply Qle_bool_iff in H. rewrite H. by eexists.
Qed.

(** A token of [create_access_token] before and from its expiry. *)
Lemma token_accepted E (user_id : str) (issued now : Q) db :
  jwt_accepts_before_exp E -> user_id <> [] ->
  (now < inject_Z (py_int (issued + 604800)))%Q ->
  get_current_user E (create_access_token E user_id issued) now db
  = match find_one (user_has_id user_id) (users db) with
    | Some d => (Returns (User_of_doc d), db)
    | None => (Raises (HTTPException 401 (lit "User not found")), db)
    end.
Proof.
  intros Hacc Hid Hnow. unfold create_access_token, get_current_user.
  rewrite Hacc by exact Hnow. cbn [Payload.user_id].
  destruct user_id as [|c s]; [done|]. step.
  by destruct (find_one _ (users db)).
Qed.

Lemma token_expired E (user_id : str) (issued now : Q) db :
  jwt_rejects_from_exp E ->
  (inject_Z (py_int (issued + 604800)) <= now)%Q ->
  get_current_user E (create_access_token E user_id issued) now db
  = (Raises (HTTPException 401 (lit "Token expired")), db).
Proof.
  intros Hrej Hnow. unfold create_access_token, get_current_user.
  destruct (Hrej (Payload.mk (Some user_id) (issued + inject_Z (3600 * 24 * 7))%Q)
              (JWT_SECRET E) now Hnow) as [msg Hm].
  by rewrite Hm.
Qed.

(** C5: a token issued at [issued] for a stored user expires at
    [int(issued + 604800)], the whole seconds of [issued] + 7 days: it is
    accepted at every clock reading before that and refused with 401
    (Token expired) at every reading from then on.  So it is accepted up
    to one second before [issued] + 7 days and refused at [issued] + 7
    days and at every later reading; within the last second before
    [issued] + 7 days it is already refused once the whole second is
    reached.  A token the library refuses as invalid is refused with 401,
    and a token still valid whose user identifier finds no stored user is
    refused with 401 (User not found). *)
Theorem token_lifetime E (user_id : str) (issued now : Q) db :
  jwt_accepts_before_exp E -> jwt_rejects_from_exp E ->
  user_id <> [] ->
  let token := create_access_token E user_id issued in
  let expires := inject_Z (py_int (issued + 604800)) in
  let accepted :=
    get_current_user E token now db
    = match find_one (user_has_id user_id) (users db) with
      | Some d => (Returns (User_of_doc d), db)
      | None => (Raises (HTTPException 401 (lit "User not found")), db)
      end in
  let expired :=
    get_current_user E token now db
    = (Raises (HTTPException 401 (lit "Token expired")), db) in
  ((now < expires)%Q -> accepted)
  /\ ((expires <= now)%Q -> expired)
  /\ ((now <= issued + 604800 - 1)%Q -> accepted)
  /\ ((0 <= issued)%Q -> (issued + 604800 <= now)%Q -> expired)
  /\ (forall malformed msg,
        jwt_decode E malformed (JWT_SECRET E) now = Raises (InvalidTokenError msg) ->
        get_current_user E malformed now db
        = (Raises (HTTPException 401 (lit "Invalid token")), db)).
Proof.
  intros Hacc Hrej Hid token expires accepted expired.
  subst token expires accepted expired.
  split; [by apply token_accepted|]. split; [by apply token_expired|].
  split; [|split].
  - intros Hnow. apply token_accepted; [done..|].
    eapply Qle_lt_trans; [exact Hnow|]. apply py_int_above.
  - intros Hissued Hnow. apply token_expired; [done|].
    eapply Qle_trans; [|exact Hnow]. apply py_int_below.
    apply (Qle_trans _ (issued + 0)); [by rewrite Qplus_0_r|].
    by apply Qplus_le_r.
  - intros malformed msg Hm. unfold get_current_user. by rewrite Hm.
Qed.

Lemma token_lifetime_witness :
  let issued := (2001 # 2)%Q in
  let now := 2000%Q in
  let token := create_access_token demo (lit "u-bob") issued in
  let expires := inject_Z (py_int (issued + 604800)) in
  let accepted :=
    get_current_user demo token now db_trained
    = match find_one (user_has_id (lit "u-bob")) (users db_trained) with
      | Some d => (Returns (User_of_doc d), db_trained)
      | None => (Raises (HTTPException 401 (lit "User not found")), db_trained)
      end in
  let expired :=
    get_current_user demo token now db_trained
    = (Raises (HTTPException 401 (lit "Token expired")), db_trained) in
  ((now < expires)%Q -> accepted)
  /\ ((expires <= now)%Q -> expired)
  /\ ((now <= issued + 604800 - 1)%Q -> accepted)
  /\ ((0 <= issued)%Q -> (issued + 604800 <= now)%Q -> expired)
  /\ (forall malformed msg,
        jwt_decode demo malformed (JWT_SECRET demo) now
        = Raises (InvalidTokenError msg) ->
        get_current_user demo malformed now db_trained
        = (Raises (HTTPException 401 (lit "Invalid token")), db_trained)).
Proof.
  apply (token_lifetime demo (lit "u-bob") (2001 # 2) 2000 db_trained
           demo_jwt_accepts demo_jwt_rejects).
  by vm_compute.
Defined.

(** C5, the claim as stated fails within the last second: a token
    issued to Bob half a second past a whole second is refused a quarter
    of a second before its seven days are over, and a token issued on a
    whole second is refused at its seven days exactly. *)
Lemma token_refused_before_seven_days :
  let issued := (2001 # 2)%Q in
  let now := (2423201 # 4)%Q in
  (now < issued + 604800)%Q
  /\ find_one (user_has_id (lit "u-bob")) (users db_trained) = Some bob_doc
  /\ get_current_user demo (create_access_token demo (lit "u-bob") issued) now
       db_trained
     = (Raises (HTTPException 401 (lit "Token expired")), db_trained)
  /\ get_current_user demo (create_access_token demo (lit "u-bob") 1000)
       (1000 + 604800)%Q db_trained
     = (Raises (HTTPException 401 (lit "Token expired")), db_trained).
Proof.
  intros issued now.
  split; [by vm_compute|]. split; [by vm_compute|]. split; by vm_compute.
Qed.

(** ** Strings *)









(** ** Uploads *)

Lemma process_json E file_content :
  process_uploaded_data_try E file_content (lit "json")
  = (text ← utf8_decode E file_content;
     data ← json_loads E text;
     match data with
     | PyList rows =>
         column_count ← match rows with
                         | [] => mret 0%nat
                         | first :: _ => len_keys first
                         end;
         mret (Processed.mk rows (take 5 rows) column_count (length rows))
     | _ =>
         column_count ← len_keys data;
         mret (Processed.mk [data] [data] column_count 1)
     end).
Proof.
  unfold process_uploaded_data_try.
  destruct (decide (lower E (lit "json") = lit "csv")) as [H|_];
    [vm_compute in H; discriminate H|].
  destruct (decide (lower E (lit "json") = lit "json")) as [_|H];
    [done | exfalso; apply H; by vm_compute].
Qed.


(** C6: a json upload.  A payload that is not UTF-8 or not JSON is
    answered 400.  A payload that parses as a list of objects gives that
    list as rows, its first 5 rows as preview, the number of keys of its
    first element (0 for the empty list) as [column_count] and its length
    as [row_count].  A payload that parses as one object gives that object
    as the only row, with its number of keys as [column_count].  The three
    rows of the example give [column_count] 1 and [row_count] 3. *)
Theorem json_upload E file_content :
  let result := process_uploaded_data E file_content (lit "json") in
  let bad_input e :=
    Raises (HTTPException 400 (lit "Error processing file: " ++ pyerror_str e)) in
  (forall e, utf8_decode E file_content = Raises e -> result = bad_input e)
  /\ forall text,
       utf8_decode E file_content = Returns text ->
       (forall e, json_loads E text = Raises e -> result = bad_input e)
       /\ (forall rows,
             json_loads E text = Returns (PyList rows) ->
             Forall is_dict rows ->
             result
             = Returns
                 (Processed.mk rows (take 5 rows)
                    match rows with
                    | PyDict first :: _ => size first
                    | _ => 0%nat
                    end
                    (length rows)))
       /\ (forall object,
             json_loads E text = Returns (PyDict object) ->
             result
             = Returns
                 (Processed.mk [PyDict object] [PyDict object] (size object) 1))
       /\ (json_loads E text = Returns json_three_rows ->
           exists r,
             result = Returns r
             /\ Processed.column_count r = 1%nat
             /\ Processed.row_count r = 3%nat).
Proof.
  intros result bad_input. subst result bad_input.
  unfold process_uploaded_data. rewrite process_json. split.
  - intros e ->. done.
  - intros text ->. step. split; [|split; [|split]].
    + intros e ->. done.
    + intros rows -> Hrows. destruct Hrows as [|first rest Hfirst _]; [done|].
      by destruct first.
    + intros object ->. done.
    + intros ->. eexists. split; [reflexivity|]. split; by vm_compute.
Qed.

Lemma json_upload_witness :
  exists r,
    process_uploaded_data demo (ascii_bytes (dq "[{'a':1},{'a':2},{'a':3}]"))
      (lit "json") = Returns r
    /\ Processed.column_count r = 1%nat
    /\ Processed.row_count r = 3%nat.
Proof.
  destruct (json_upload demo (ascii_bytes (dq "[{'a':1},{'a':2},{'a':3}]")))
    as [_ H].
  destruct (H (dq "[{'a':1},{'a':2},{'a':3}]")) as (_ & _ & _ & Hex);
    [by vm_compute|].
  apply Hex. by vm_compute.
Defined.



Lemma json_is_allowed : lit "json" ∈ allowed_types.
Proof. decide_closed. Qed.

(** C10, as the code has it: a json upload whose payload is well-formed
    JSON but is not an object, not the empty list, and not a list whose
    first element is an object, is answered 400, with the detail of the
    missing [keys]; nothing is stored. *)
Theorem json_without_keys_is_rejected E filename file_content name
    current_user new_id now db text v :
  file_extension_of E filename = lit "json" ->
  utf8_decode E file_content = Returns text ->
  json_loads E text = Returns v ->
  ~ is_dict v ->
  v <> PyList [] ->
  (forall first rest, v = PyList (first :: rest) -> ~ is_dict first) ->
  process_uploaded_data E file_content (lit "json")
  = Raises (HTTPException 400 (no_keys_detail v))
  /\ upload_dataset E filename file_content name current_user new_id now db
     = (Raises (HTTPException 400 (no_keys_detail v)), db).
Proof.
  intros Hext Htext Hv Hobj Hempty Hfirst.
  assert (Hp : process_uploaded_data E file_content (lit "json")
               = Raises (HTTPException 400 (no_keys_detail v))).
  { unfold process_uploaded_data. rewrite process_json, Htext. step.
    rewrite Hv. unfold no_keys_detail.
    destruct v as [| | | | |rows|object]; try done.
    destruct rows as [|first rest]; [done|].
    specialize (Hfirst first rest eq_refl).
    cbn [keys_subject]. by destruct first. }
  split; [exact Hp|].
  unfold upload_dataset. rewrite Hext.
  destruct (decide (lit "json" ∈ allowed_types)) as [_|H];
    [|by destruct H; apply json_is_allowed].
  step. by rewrite Hp.
Qed.

Lemma json_without_keys_is_rejected_witness :
  process_uploaded_data demo (ascii_bytes (lit "[1,2,3]")) (lit "json")
  = Raises (HTTPException 400
              (no_keys_detail (PyList [PyInt 1; PyInt 2; PyInt 3])))
  /\ upload_dataset demo (lit "numbers.json") (ascii_bytes (lit "[1,2,3]"))
       (lit "numbers") bob (lit "ds-2") 150 db_trained
     = (Raises (HTTPException 400
                  (no_keys_detail (PyList [PyInt 1; PyInt 2; PyInt 3]))),
        db_trained).
Proof.
  apply (json_without_keys_is_rejected demo (lit "numbers.json")
           (ascii_bytes (lit "[1,2,3]")) (lit "numbers") bob (lit "ds-2") 150
           db_trained (lit "[1,2,3]") (PyList [PyInt 1; PyInt 2; PyInt 3]));
    try (by vm_compute).
  intros first rest [= <- _] H. exact H.
Defined.

(** C10, the claim as stated fails: the empty list is well-formed JSON,
    is not an object and has no first element, and its upload is accepted,
    with no rows and no columns, and stored. *)
Lemma empty_json_list_is_accepted :
  utf8_decode demo (ascii_bytes (lit "[]")) = Returns (lit "[]")
  /\ json_loads demo (lit "[]") = Returns (PyList [])
  /\ ~ is_dict (PyList [])
  /\ ~ (exists first rest, PyList [] = PyList (first :: rest) /\ is_dict first)
  /\ process_uploaded_data demo (ascii_bytes (lit "[]")) (lit "json")
     = Returns (Processed.mk [] [] 0 0)
  /\ upload_dataset demo (lit "empty.json") (ascii_bytes (lit "[]"))
       (lit "nothing") bob (lit "ds-2") 150 db_trained
     = (Returns empty_dataset,
        set_datasets (insert_one (DatasetDoc_of empty_dataset [])) db_trained).
Proof.
  split; [by vm_compute|]. split; [by vm_compute|]. split; [by intros []|].
  split; [by intros (first & rest & [=] & _)|]. split; by vm_compute.
Qed.

(** ** Registration and login *)





(** What a registration that returns has done. *)
Lemma register_returns E user_data new_id now salt token_time db r db1 :
  register E user_data new_id now salt token_time db = (Returns r, db1) ->
  let user := User.mk new_id (UserCreate.email user_data)
                (UserCreate.name user_data) now in
  exists hashed,
    hash_password E (UserCreate.password user_data) salt = Returns hashed
    /\ find_one (user_has_email (UserCreate.email user_data)) (users db) = None
    /\ users db1 = users db ++ [UserDoc_of user hashed]
    /\ r = AuthResponse.mk (create_access_token E new_id token_time) user.
Proof.
  unfold register. step.
  destruct (find_one _ (users db)) as [d|]; [discriminate|].
  destruct (hash_password E _ salt) as [hashed|e]; [|discriminate].
  intros [= <- <-]. by exists hashed.
Qed.

(** The users of the store only grow, at the end. *)
Lemma serve_keeps_users E req db :
  users db `prefix_of` users (snd (serve E req db)).
Proof.
  destruct req as [ud i now salt tt | cr tt | tok t c]; unfold serve.
  - unfold register. run; try done. by apply prefix_app_r.
  - unfold login. run; done.
  - step. pose proof (get_current_user_store E tok t db) as Hs.
    destruct (get_current_user E tok t db) as [[u|e'] db'];
      cbn [fst snd] in *; subst db'; [|done].
    destruct c; unfold run_call, upload_dataset, get_datasets, train_model,
      get_models, predict, test_model, deploy_model, get_deployed_models,
      get_dashboard_stats, process_uploaded_data; run; done.
Qed.





(** ** Listing datasets *)

Lemma process_preview_bounded E file_content file_type r :
  process_uploaded_data E file_content file_type = Returns r ->
  (length (Processed.preview r) <= 5)%nat.
Proof.
  unfold process_uploaded_data, process_uploaded_data_try.
  run; intros [= <-]; cbn [Processed.preview length];
    rewrite ?length_take; lia.
Qed.

Lemma upload_dataset_bounded E filename file_content name current_user
    new_id now db :
  validation_keeps_length E -> previews_bounded db ->
  previews_bounded
    (snd (upload_dataset E filename file_content name current_user new_id now db)).
Proof.
  intros Hval Hdb. unfold upload_dataset. step.
  destruct (decide _) as [_|_]; [|done]. step.
  destruct (process_uploaded_data _ _ _) as [r|e] eqn:Hr; [|done]. step.
  destruct (validate_rows _ _) as [rows|e] eqn:Hrows; [|done]. step.
  unfold previews_bounded, set_datasets, insert_one. cbn [datasets].
  apply Forall_app. split; [done|]. constructor; [|done].
  cbn [DatasetDoc_of DatasetDoc.data_preview Dataset.data_preview].
  rewrite (Hval _ _ Hrows). by eapply process_preview_bounded.
Qed.

Lemma serve_previews_bounded E req db :
  validation_keeps_length E -> previews_bounded db ->
  previews_bounded (snd (serve E req db)).
Proof.
  intros Hval Hdb.
  destruct req as [ud i now salt tt | cr tt | tok t c]; unfold serve.
  - unfold register. run; done.
  - unfold login. run; done.
  - step. pose proof (get_current_user_store E tok t db) as Hs.
    destruct (get_current_user E tok t db) as [[u|e'] db'];
      cbn [fst snd] in *; subst db'; [|done].
    destruct c;
      try (unfold run_call, get_datasets, train_model, get_models, predict,
             test_model, deploy_model, get_deployed_models,
             get_dashboard_stats; run; done).
    unfold run_call. step.
    pose proof (upload_dataset_bounded E filename file_content name u new_id
                  now db Hval Hdb) as Hup.
    by destruct (upload_dataset _ _ _ _ _ _ _ _) as [[d|e] db'].
Qed.

Lemma reachable_previews_bounded db : reachable db -> previews_bounded db.
Proof.
  induction 1 as [|E req db Hval _ IH]; [constructor|].
  by apply serve_previews_bounded.
Qed.

Lemma filter_without_full_data uid (l : list DatasetDoc.t) :
  filter (dataset_of uid) (without_full_data <$> l)
  = without_full_data <$> filter (dataset_of uid) l.
Proof.
  induction l as [|d l IH]; [done|].
  rewrite fmap_cons, !filter_cons, IH.
  destruct (decide (dataset_of uid d)), (decide (dataset_of uid (without_full_data d)));
    done.
Qed.

Lemma listing_erased uid (l : list DatasetDoc.t) :
  Dataset_of_doc <$> to_list 1000 (find (dataset_of uid) (without_full_data <$> l))
  = Dataset_of_doc <$> to_list 1000 (find (dataset_of uid) l).
Proof.
  unfold to_list, find.
  by rewrite filter_without_full_data, <- fmap_take, <- list_fmap_compose.
Qed.

(** C9: in every store the API can produce, listing datasets returns
    datasets of the caller only, each with a preview of at most 5 rows and
    the counts stored with it, and does not depend on the full rows of any
    stored dataset: two stores whose dataset documents agree on every key
    but [full_data] give the same listing.  The listing leaves the store
    as it was. *)
Theorem listing_omits_full_data current_user db :
  reachable db ->
  exists listed,
    get_datasets current_user db = (Returns listed, db)
    /\ Forall (fun d => Dataset.user_id d = User.id current_user
                        /\ (length (Dataset.data_preview d) <= 5)%nat) listed
    /\ (forall d, d ∈ listed ->
          exists doc, doc ∈ datasets db /\ d = Dataset_of_doc doc)
    /\ (forall db',
          without_full_data <$> datasets db' = without_full_data <$> datasets db ->
          fst (get_datasets current_user db') = Returns listed).
Proof.
  intros Hreach. apply reachable_previews_bounded in Hreach.
  exists (Dataset_of_doc
            <$> to_list 1000
                  (find (dataset_of (User.id current_user)) (datasets db))).
  split; [reflexivity|].
  unfold to_list, find. split; [|split].
  - apply Forall_fmap, Forall_take, Forall_forall.
    intros d [Hd Hin]%list_elem_of_filter. split; [exact Hd|].
    unfold previews_bounded in Hreach. rewrite Forall_forall in Hreach.
    by apply Hreach.
  - intros d (doc & -> & Hin)%list_elem_of_fmap.
    exists doc. split; [|done].
    apply subseteq_take in Hin. by apply list_elem_of_filter in Hin as [_ ?].
  - intros db' Heq.
    change (fst (get_datasets current_user db'))
      with (Returns (E:=exception)
              (Dataset_of_doc
                 <$> to_list 1000
                       (find (dataset_of (User.id current_user)) (datasets db')))).
    f_equal. rewrite <- (listing_erased _ (datasets db')), Heq.
    apply listing_erased.
Qed.

Lemma demo_validation : validation_keeps_length demo.
Proof.
  intros l l'. cbn [demo validate_rows]. unfold demo_validate_rows.
  case_decide; [by intros [= <-] | done].
Qed.

(** What an upload stores: the dataset it returns, with all the parsed
    rows under [full_data]. *)
Lemma upload_stores_full_data E filename file_content name current_user
    new_id now db d db' :
  upload_dataset E filename file_content name current_user new_id now db
  = (Returns d, db') ->
  exists r,
    process_uploaded_data E file_content (file_extension_of E filename) = Returns r
    /\ datasets db' = datasets db ++ [DatasetDoc_of d (Processed.data r)].
Proof.
  unfold upload_dataset. step.
  destruct (decide _) as [_|_]; [|discriminate]. step.
  destruct (process_uploaded_data _ _ _) as [r|e]; [|discriminate]. step.
  destruct (validate_rows _ _) as [rows|e]; [|discriminate]. step.
  intros [= <- <-]. by exists r.
Qed.

Example db_bob_uploaded_full_data :
  DatasetDoc.full_data <$> datasets db_bob_uploaded
  = [[PyDict {[ lit "a" := PyInt 1 ]}; PyDict {[ lit "a" := PyInt 2 ]};
      PyDict {[ lit "a" := PyInt 3 ]}]].
Proof. by vm_compute. Qed.

Lemma listing_omits_full_data_witness :
  exists listed,
    get_datasets bob db_bob_uploaded = (Returns listed, db_bob_uploaded)
    /\ Forall (fun d => Dataset.user_id d = User.id bob
                        /\ (length (Dataset.data_preview d) <= 5)%nat) listed
    /\ (forall d, d ∈ listed ->
          exists doc, doc ∈ datasets db_bob_uploaded /\ d = Dataset_of_doc doc)
    /\ (forall db',
          without_full_data <$> datasets db'
          = without_full_data <$> datasets db_bob_uploaded ->
          fst (get_datasets bob db') = Returns listed).
Proof.
  apply (listing_omits_full_data bob db_bob_uploaded).
  repeat (apply reachable_serve; [apply demo_validation|]).
  apply reachable_empty.
Defined.

(** * Further properties of the handlers *)

(** ** File names *)

Lemma split_without_sep sep s : sep ∉ s -> split sep s = [s].
Proof.
  induction s as [|c r IH]; [done|]. intros Hs. simpl.
  destruct (decide (c = sep)) as [->|_]; [by destruct Hs; left|].
  rewrite IH; [done|]. intros ?. apply Hs. by right.
Qed.

Lemma split_app_sep sep a b :
  exists pre, pre <> [] /\ split sep (a ++ sep :: b) = pre ++ split sep b.
Proof.
  induction a as [|c a (pre & Hpre & IH)]; simpl.
  - exists [[]]. split; [done|]. by destruct (decide (sep = sep)).
  - rewrite IH. destruct (decide (c = sep)).
    + by exists ([] :: pre).
    + destruct pre as [|p ps]; [done|]. by exists ((c :: p) :: ps).
Qed.

Lemma last_split_app_sep sep a b :
  sep ∉ b -> last (split sep (a ++ sep :: b)) = Some b.
Proof.
  intros Hb. destruct (split_app_sep sep a b) as (pre & _ & ->).
  by rewrite (split_without_sep _ _ Hb), last_snoc.
Qed.

(** X1: the extension of a file name is what follows its last dot, put
    in lower case by [str.lower]: when that is ASCII its letters A-Z are
    lowered, and otherwise it goes through the Unicode case tables. *)
Theorem file_extension_after_last_dot E (stem ext : str) :
  dot ∉ ext ->
  file_extension_of E (stem ++ dot :: ext) = lower E ext
  /\ (is_ascii ext -> file_extension_of E (stem ++ dot :: ext) = ascii_lower ext)
  /\ (~ is_ascii ext ->
      file_extension_of E (stem ++ dot :: ext) = unicode_lower E ext).
Proof.
  intros Hext.
  assert (H : file_extension_of E (stem ++ dot :: ext) = lower E ext).
  { unfold file_extension_of. case_decide as H.
    - rewrite last_split_app_sep by done. reflexivity.
    - destruct H. apply elem_of_app. right. by left. }
  rewrite H. unfold lower. split; [done|]. split; intros Ha; by case_decide.
Qed.

Lemma file_extension_after_last_dot_witness :
  file_extension_of demo (lit "report.final" ++ dot :: [201%N])
  = lower demo [201%N]
  /\ (is_ascii [201%N] ->
      file_extension_of demo (lit "report.final" ++ dot :: [201%N])
      = ascii_lower [201%N])
  /\ (~ is_ascii [201%N] ->
      file_extension_of demo (lit "report.final" ++ dot :: [201%N])
      = unicode_lower demo [201%N]).
Proof.
  apply (file_extension_after_last_dot demo (lit "report.final") [201%N]).
  decide_closed.
Defined.

(** ** Uploads, whatever the type *)

Lemma processing_detail_differs (detail : str) :
  lit "Error processing file: " ++ detail
  <> lit "File type not supported. Allowed: ['csv', 'json', 'txt']".
Proof. intros H. vm_compute in H. discriminate H. Qed.

(** X2: an upload is answered 400 with the detail that lists the allowed
    types exactly when the extension of its file name is not csv, json or
    txt; nothing is stored then. *)
Theorem unsupported_extension_only E filename file_content name current_user
    new_id now db :
  let run := upload_dataset E filename file_content name current_user new_id
               now db in
  let unsupported :=
    Raises (HTTPException 400
              (lit "File type not supported. Allowed: ['csv', 'json', 'txt']")) in
  (fst run = unsupported <-> file_extension_of E filename ∉ allowed_types)
  /\ (file_extension_of E filename ∉ allowed_types -> snd run = db).
Proof.
  intros r unsupported. subst r unsupported. unfold upload_dataset.
  case_decide as Hext; step.
  - split; [|done]. split; [|done].
    unfold process_uploaded_data. run; intros [= H]; try done;
      by apply processing_detail_differs in H.
  - done.
Qed.

Lemma unsupported_extension_only_witness :
  snd (upload_dataset demo (lit "notes.pdf") [] (lit "notes") bob (lit "ds-9")
         500 db_trained) = db_trained.
Proof.
  apply (unsupported_extension_only demo (lit "notes.pdf") [] (lit "notes") bob
           (lit "ds-9") 500 db_trained).
  decide_closed.
Defined.

Lemma lower_allowed_cases E (file_type : str) :
  lower E file_type ∈ allowed_types ->
  lower E file_type = lit "csv" \/ lower E file_type = lit "json"
  \/ lower E file_type = lit "txt".
Proof.
  unfold allowed_types.
  intros [->|[->|[->|H%elem_of_nil]%elem_of_cons]%elem_of_cons]%elem_of_cons;
    tauto.
Qed.

(** X3: whatever the type, a file that is processed gives as preview the
    first 5 of its rows, so at most 5, as [row_count] the number of its
    rows, and has a type that is csv, json or txt up to case. *)
Theorem processed_shape E file_content file_type r :
  process_uploaded_data E file_content file_type = Returns r ->
  Processed.preview r = take 5 (Processed.data r)
  /\ Processed.row_count r = length (Processed.data r)
  /\ (length (Processed.preview r) <= 5)%nat
  /\ lower E file_type ∈ allowed_types.
Proof.
  unfold process_uploaded_data, process_uploaded_data_try.
  run; intros [= <-]; cbn [Processed.preview Processed.data Processed.row_count];
    (split; [done|]); (split; [by rewrite ?length_fmap|]);
    (split; [cbn [length]; rewrite ?length_take; lia|]);
    match goal with
    | H : lower E file_type = _ |- _ => rewrite H; decide_closed
    end.
Qed.

Lemma processed_shape_witness :
  let r := Processed.mk (text_record <$> [lit "line1"; lit "line2"])
             (text_record <$> [lit "line1"; lit "line2"]) 1 2 in
  Processed.preview r = take 5 (Processed.data r)
  /\ Processed.row_count r = length (Processed.data r)
  /\ (length (Processed.preview r) <= 5)%nat
  /\ lower demo (lit "TXT") ∈ allowed_types.
Proof.
  apply (processed_shape demo (ascii_bytes two_lines_text) (lit "TXT")).
  by vm_compute.
Defined.

(** X4: the declared type is matched without regard to case: two types
    that agree in lower case, and are csv, json or txt there, give the
    same result on the same bytes. *)
Theorem file_type_case_insensitive E file_content (file_type file_type' : str) :
  lower E file_type = lower E file_type' ->
  lower E file_type ∈ allowed_types ->
  process_uploaded_data E file_content file_type
  = process_uploaded_data E file_content file_type'.
Proof.
  intros Heq Hallowed. apply lower_allowed_cases in Hallowed.
  unfold process_uploaded_data, process_uploaded_data_try. rewrite <- Heq.
  repeat case_decide; try done. tauto.
Qed.

Lemma file_type_case_insensitive_witness :
  process_uploaded_data demo (ascii_bytes (lit "[1,2,3]")) (lit "Json")
  = process_uploaded_data demo (ascii_bytes (lit "[1,2,3]")) (lit "JSON").
Proof.
  apply (file_type_case_insensitive demo (ascii_bytes (lit "[1,2,3]"))
           (lit "Json") (lit "JSON")); [by vm_compute | decide_closed].
Defined.

(** ** Upload, then list *)

Lemma upload_dataset_returns E filename file_content name current_user
    new_id now db d db' :
  upload_dataset E filename file_content name current_user new_id now db
  = (Returns d, db') ->
  exists r,
    process_uploaded_data E file_content (file_extension_of E filename) = Returns r
    /\ validate_rows E (Processed.preview r) = Returns (Dataset.data_preview d)
    /\ file_extension_of E filename ∈ allowed_types
    /\ d = Dataset.mk new_id name (User.id current_user)
             (file_extension_of E filename) (length file_content)
             (Dataset.data_preview d) (Processed.column_count r)
             (Processed.row_count r) now
    /\ db' = set_datasets (insert_one (DatasetDoc_of d (Processed.data r))) db.
Proof.
  unfold upload_dataset. step.
  case_decide as Hext; [|discriminate]. step.
  destruct (process_uploaded_data _ _ _) as [r|e] eqn:Hr; [|discriminate]. step.
  destruct (validate_rows _ _) as [rows|e] eqn:Hrows; [|discriminate]. step.
  intros [= <- <-]. exists r. by split_and!.
Qed.

Lemma find_app_own {A} (P : A -> Prop) `{Pdec : !forall x, Decision (P x)}
    (l : list A) (x : A) :
  P x -> find P (l ++ [x]) = find P l ++ [x].
Proof. intros HP. unfold find. by rewrite filter_app, filter_cons_True. Qed.

Lemma find_app_other {A} (P : A -> Prop) `{Pdec : !forall x, Decision (P x)}
    (l : list A) (x : A) :
  ~ P x -> find P (l ++ [x]) = find P l.
Proof.
  intros HP. unfold find.
  by rewrite filter_app, filter_cons_False, filter_nil, app_nil_r.
Qed.

(** X5: a successful upload adds one document, at the end of the
    datasets and owned by the caller, and touches no other collection.
    While the caller has fewer than 1000 datasets, the listing of the
    caller afterwards is the listing before followed by the dataset the
    upload returned; the listing of any other user is as before. *)
Theorem upload_then_list E filename file_content name current_user new_id now
    db d db' :
  upload_dataset E filename file_content name current_user new_id now db
  = (Returns d, db') ->
  Dataset.user_id d = User.id current_user
  /\ Dataset.id d = new_id
  /\ Dataset.file_size d = length file_content
  /\ (exists doc, datasets db' = datasets db ++ [doc] /\ Dataset_of_doc doc = d)
  /\ users db' = users db
  /\ model_trainings db' = model_trainings db
  /\ deployed_models db' = deployed_models db
  /\ (forall listed,
        (count_documents (dataset_of (User.id current_user)) (datasets db)
         < 1000)%nat ->
        fst (get_datasets current_user db) = Returns listed ->
        fst (get_datasets current_user db') = Returns (listed ++ [d]))
  /\ (forall other,
        User.id other <> User.id current_user ->
        fst (get_datasets other db') = fst (get_datasets other db)).
Proof.
  intros Hup.
  destruct (upload_dataset_returns _ _ _ _ _ _ _ _ _ _ Hup)
    as (r & _ & _ & _ & Hd & ->).
  assert (Hu : Dataset.user_id d = User.id current_user) by (by rewrite Hd).
  split; [done|]. split; [by rewrite Hd|]. split; [by rewrite Hd|].
  split; [eexists; split; [reflexivity | by destruct d]|].
  split; [done|]. split; [done|]. split; [done|]. split.
  - intros listed Hlt. unfold get_datasets, count_documents. step.
    cbn [set_datasets datasets]. unfold insert_one, to_list.
    intros [= <-]. f_equal.
    rewrite find_app_own by (by destruct d).
    rewrite !take_ge by (unfold find; rewrite ?length_app; cbn [length];
                         unfold count_documents in Hlt; lia).
    rewrite fmap_app. cbn. by destruct d.
  - intros other Hother. unfold get_datasets. step.
    cbn [set_datasets datasets]. unfold insert_one.
    rewrite find_app_other; [done|].
    unfold dataset_of. destruct d. cbn in *. congruence.
Qed.

Lemma upload_then_list_witness :
  upload_dataset demo (lit "rows.json")
    (ascii_bytes (dq "[{'a':1},{'a':2},{'a':3}]")) (lit "three rows") bob
    (lit "ds-3") 400 db_bob_registered
  = (Returns three_rows_dataset, db_bob_uploaded)
  /\ fst (get_datasets bob db_bob_uploaded) = Returns ([] ++ [three_rows_dataset])
  /\ fst (get_datasets alice db_bob_uploaded)
     = fst (get_datasets alice db_bob_registered).
Proof.
  assert (H : upload_dataset demo (lit "rows.json")
                (ascii_bytes (dq "[{'a':1},{'a':2},{'a':3}]")) (lit "three rows")
                bob (lit "ds-3") 400 db_bob_registered
              = (Returns three_rows_dataset, db_bob_uploaded)) by (by vm_compute).
  destruct (upload_then_list demo _ _ _ _ _ _ _ _ _ H)
    as (_ & _ & _ & _ & _ & _ & _ & Hown & Hother).
  split; [exact H|]. split.
  - apply Hown; [decide_closed | by vm_compute].
  - apply Hother. by vm_compute.
Defined.

(** ** Training and testing *)

Lemma train_model_returns E dataset_id model_name custom_prompt current_user
    new_id now completed db t db' :
  train_model E dataset_id model_name custom_prompt current_user new_id now
    completed db = (Returns t, db') ->
  exists ds,
    find_one (dataset_is dataset_id (User.id current_user)) (datasets db) = Some ds
    /\ validate_rows E (take 100 (DatasetDoc.full_data ds))
       = Returns (ModelTraining.training_data t)
    /\ t = ModelTraining.mk new_id model_name (User.id current_user) dataset_id
             (lit "completed") (lit "gemini-2.0-flash") custom_prompt
             (ModelTraining.training_data t) now (Some completed)
    /\ db' = set_model_trainings (insert_one t) db.
Proof.
  unfold train_model. step.
  destruct (find_one _ (datasets db)) as [ds|] eqn:Hds; [|discriminate]. step.
  destruct (validate_rows _ _) as [rows|e] eqn:Hrows; [|discriminate]. step.
  intros [= <- <-]. exists ds. by split_and!.
Qed.

(** X6: a training that succeeds was given a dataset of the caller; the
    model it stores is owned by the caller, is already completed, and
    holds at most the first 100 rows of the dataset; it is added at the
    end of the models and nothing else in the store changes.  While the
    caller has fewer than 1000 models it is the last of the caller's
    listing afterwards. *)
Theorem training_record E dataset_id model_name custom_prompt current_user
    new_id now completed db t db' :
  validation_keeps_length E ->
  train_model E dataset_id model_name custom_prompt current_user new_id now
    completed db = (Returns t, db') ->
  (exists ds,
     ds ∈ datasets db
     /\ DatasetDoc.id ds = dataset_id
     /\ DatasetDoc.user_id ds = User.id current_user
     /\ length (ModelTraining.training_data t)
        = Nat.min 100 (length (DatasetDoc.full_data ds)))
  /\ ModelTraining.user_id t = User.id current_user
  /\ ModelTraining.status t = lit "completed"
  /\ ModelTraining.completed_at t = Some completed
  /\ ModelTraining.custom_prompt t = custom_prompt
  /\ model_trainings db' = model_trainings db ++ [t]
  /\ users db' = users db
  /\ datasets db' = datasets db
  /\ deployed_models db' = deployed_models db
  /\ ((count_documents (training_of (User.id current_user)) (model_trainings db)
       < 1000)%nat ->
      exists earlier,
        fst (get_models current_user db) = Returns earlier
        /\ fst (get_models current_user db') = Returns (earlier ++ [t])).
Proof.
  intros Hval Htrain.
  destruct (train_model_returns _ _ _ _ _ _ _ _ _ _ _ Htrain)
    as (ds & Hds & Hrows & Ht & ->).
  destruct (find_one_Some _ _ _ Hds) as ([Hid Huid] & before & after & Hl & _).
  split.
  { exists ds. split; [rewrite Hl; apply elem_of_app; right; by left|].
    split; [done|]. split; [done|].
    by rewrite (Hval _ _ Hrows), length_take. }
  split; [by rewrite Ht|]. split; [by rewrite Ht|]. split; [by rewrite Ht|].
  split; [by rewrite Ht|]. split; [done|]. split; [done|]. split; [done|].
  split; [done|].
  intros Hlt. eexists. split; [reflexivity|].
  unfold get_models. step. cbn [set_model_trainings model_trainings].
  unfold insert_one, to_list, count_documents in *. f_equal.
  rewrite find_app_own by (by rewrite Ht).
  by rewrite !take_ge by (unfold find; rewrite ?length_app; cbn [length]; lia).
Qed.

Lemma training_record_witness :
  train_model demo (lit "ds-3") (lit "rows model") (lit "Answer in one word.")
    bob (lit "m-3") 410 411 db_bob_uploaded
  = (Returns bob_training, db_bob_trained)
  /\ model_trainings db_bob_trained
     = model_trainings db_bob_uploaded ++ [bob_training]
  /\ ModelTraining.status bob_training = lit "completed".
Proof.
  assert (H : train_model demo (lit "ds-3") (lit "rows model")
                (lit "Answer in one word.") bob (lit "m-3") 410 411
                db_bob_uploaded
              = (Returns bob_training, db_bob_trained)) by (by vm_compute).
  destruct (training_record demo _ _ _ _ _ _ _ _ _ _ demo_validation H)
    as (_ & _ & Hstatus & _ & _ & Hlist & _).
  by split_and!.
Defined.

(** X7: the prompt given at training is what Test sends to the delegate.
    After a training under an identifier the caller had no model of, in
    that store and in every store whose models extend it, Test of that
    model with the inference key set answers with the reply of the
    delegate to a chat whose system message is that prompt, or with 500
    and the message of the delegate's exception. *)
Theorem trained_prompt_is_tested E E' dataset_id model_name custom_prompt
    current_user new_id now completed db t db1 db2 test_data c key :
  train_model E dataset_id model_name custom_prompt current_user new_id now
    completed db = (Returns t, db1) ->
  find_one (training_is new_id (User.id current_user)) (model_trainings db) = None ->
  model_trainings db1 `prefix_of` model_trainings db2 ->
  GOOGLE_API_KEY E' = Some (c :: key) ->
  ModelTraining.custom_prompt t = custom_prompt
  /\ test_model E' new_id test_data current_user db2
     = (match send_message E' (chat_for (c :: key) new_id t)
                (ModelTest.input_text test_data) with
        | Returns reply =>
            Returns (ModelTestResponse.mk reply (Qmake 95 100)
                       (Qmake (clock_end E' - clock_start E') 1000000))
        | Raises e =>
            Raises (HTTPException 500
                      (lit "Error testing model: " ++ pyerror_str e))
        end, db2).
Proof.
  intros Htrain Hfresh [later Hlater] Hkey.
  destruct (train_model_returns _ _ _ _ _ _ _ _ _ _ _ Htrain)
    as (ds & _ & _ & Ht & ->).
  split; [by rewrite Ht|].
  assert (Hfound : find_one (training_is new_id (User.id current_user))
                     (model_trainings db2) = Some t).
  { rewrite Hlater. apply find_one_app_Some. cbn [set_model_trainings model_trainings].
    apply find_one_first; [exact (proj1 (find_one_None _ _) Hfresh)|].
    by rewrite Ht. }
  unfold test_model. step. rewrite Hfound, Hkey. unfold chat_for.
  by destruct (send_message E' _ _).
Qed.

Lemma trained_prompt_is_tested_witness :
  ModelTraining.custom_prompt bob_training = lit "Answer in one word."
  /\ test_model demo (lit "m-3") hello bob db_bob_trained
     = (match send_message demo (chat_for (lit "key") (lit "m-3") bob_training)
                (ModelTest.input_text hello) with
        | Returns reply =>
            Returns (ModelTestResponse.mk reply (Qmake 95 100)
                       (Qmake (clock_end demo - clock_start demo) 1000000))
        | Raises e =>
            Raises (HTTPException 500
                      (lit "Error testing model: " ++ pyerror_str e))
        end, db_bob_trained).
Proof.
  apply (trained_prompt_is_tested demo demo (lit "ds-3") (lit "rows model")
           (lit "Answer in one word.") bob (lit "m-3") 410 411 db_bob_uploaded
           bob_training db_bob_trained db_bob_trained hello 107%N
           [101; 121]%N); try (by vm_compute).
  reflexivity.
Defined.

(** X8: Test lets no exception of a library escape and writes nothing.
    It answers 404 exactly when the caller owns no model of that
    identifier, otherwise 500 or a response; every response carries the
    reply of the delegate unchanged and the confidence 0.95. *)
Theorem test_model_outcomes E model_id test_data current_user db :
  let found := find_one (training_is model_id (User.id current_user))
                 (model_trainings db) in
  snd (test_model E model_id test_data current_user db) = db
  /\ match fst (test_model E model_id test_data current_user db) with
     | Returns r =>
         ModelTestResponse.confidence r = Qmake 95 100
         /\ exists m key,
              found = Some m /\ GOOGLE_API_KEY E = Some key /\ key <> []
              /\ send_message E (chat_for key model_id m)
                   (ModelTest.input_text test_data)
                 = Returns (ModelTestResponse.output r)
     | Raises (HTTPException code detail) =>
         (code = 404 /\ found = None) \/ (code = 500 /\ found <> None)
     | Raises (Unhandled _) => False
     end.
Proof.
  intros found. subst found. split; [apply test_model_store|].
  unfold test_model. step.
  destruct (find_one _ (model_trainings db)) as [m|]; step; [|by left].
  destruct (GOOGLE_API_KEY E) as [[|c key]|] eqn:Hkey; step;
    try (by right).
  destruct (send_message E _ _) as [reply|e] eqn:Hsend; step; [|by right].
  split; [done|]. exists m, (c :: key). by split_and!.
Qed.

(** ** What a request does to the store *)

(** The store a call leaves, read off the handlers. *)
Lemma run_call_store E c current_user db :
  let uid := User.id current_user in
  let db' := snd (run_call E c current_user db) in
  users db' = users db
  /\ (datasets db' = datasets db
      \/ exists doc, DatasetDoc.user_id doc = uid
                     /\ datasets db' = datasets db ++ [doc])
  /\ (model_trainings db' = model_trainings db
      \/ exists t, ModelTraining.user_id t = uid
                   /\ model_trainings db' = model_trainings db ++ [t])
  /\ (deployed_models db' = deployed_models db
      \/ (exists d, DeployedModel.user_id d = uid
                    /\ DeployedModel.usage_count d = 0
                    /\ deployed_models db' = deployed_models db ++ [d])
      \/ exists model_id,
           deployed_models db'
           = update_one (deployment_for model_id uid) inc_usage_count
               (deployed_models db)).
Proof.
  intros uid db'. subst uid db'.
  destruct c; unfold run_call, upload_dataset, get_datasets, train_model,
    get_models, predict, test_model, deploy_model, get_deployed_models,
    get_dashboard_stats, process_uploaded_data; run;
    cbn [users datasets model_trainings deployed_models set_users set_datasets
         set_model_trainings set_deployed_models];
    (split; [reflexivity|]);
    (split; [first [left; reflexivity
                   | right; eexists; split; [|reflexivity]; reflexivity]|]);
    (split; [first [left; reflexivity
                   | right; eexists; split; [|reflexivity]; reflexivity]|]);
    first [left; reflexivity
          | right; left; eexists; split; [|split; [|reflexivity]]; reflexivity
          | right; right; eexists; reflexivity].
Qed.

Lemma serve_authenticated E credentials auth_time c db :
  serve E (Authenticated credentials auth_time c) db
  = match fst (get_current_user E credentials auth_time db) with
    | Returns u => run_call E c u db
    | Raises e => (Raises e, db)
    end.
Proof.
  unfold serve. step.
  pose proof (get_current_user_store E credentials auth_time db) as Hs.
  destruct (get_current_user E credentials auth_time db) as [[u|e] db'];
    cbn [fst snd] in *; by subst db'.
Qed.

(** X9: a login, a listing, the dashboard and Test leave the store
    exactly as they found it, whether they return or raise. *)
Theorem read_only_requests_keep_store E req db :
  read_only req = true -> snd (serve E req db) = db.
Proof.
  destruct req as [ud i now salt tt | cr tt | tok t c]; [done| |].
  - intros _. unfold serve, login. run; done.
  - intros Hc. rewrite serve_authenticated.
    destruct (fst (get_current_user E tok t db)) as [u|e]; [|done].
    destruct c; try done; unfold run_call, get_datasets, get_models, test_model,
      get_deployed_models, get_dashboard_stats; run; done.
Qed.

Lemma read_only_requests_keep_store_witness :
  read_only (Authenticated bob_token 500 (TestModel (lit "m-3") hello)) = true
  /\ snd (serve demo (Authenticated bob_token 500 (TestModel (lit "m-3") hello))
            db_bob_trained) = db_bob_trained.
Proof.
  split; [reflexivity|].
  by apply (read_only_requests_keep_store demo
              (Authenticated bob_token 500 (TestModel (lit "m-3") hello))
              db_bob_trained).
Defined.

Lemma counted_on_refl d : counted_on d d.
Proof. split; [by destruct d | lia]. Qed.

Lemma counted_on_inc d : counted_on d (inc_usage_count d).
Proof. split; [by destruct d | destruct d; cbn; lia]. Qed.

Lemma update_one_counted_on (P : DeployedModel.t -> Prop)
    `{Pdec : !forall x, Decision (P x)} (l : list DeployedModel.t) :
  Forall2 counted_on l (update_one P inc_usage_count l).
Proof.
  induction l as [|d l IH]; [constructor|]. simpl.
  destruct (decide (P d)).
  - constructor; [apply counted_on_inc|].
    clear. induction l; constructor; [apply counted_on_refl | done].
  - constructor; [apply counted_on_refl | done].
Qed.

Lemma Forall2_counted_on_refl (l : list DeployedModel.t) :
  Forall2 counted_on l l.
Proof. induction l; constructor; [apply counted_on_refl | done]. Qed.

Lemma fmap_store {A B} (f : A -> B) (m : handler A) db :
  snd ((f <$> m) db) = snd (m db).
Proof. unfold fmap, handler_fmap. by destruct (m db) as [[a|e] db']. Qed.

Lemma register_store E user_data new_id now salt token_time db :
  let db' := snd (register E user_data new_id now salt token_time db) in
  users db `prefix_of` users db'
  /\ datasets db' = datasets db
  /\ model_trainings db' = model_trainings db
  /\ deployed_models db' = deployed_models db.
Proof.
  unfold register. run; cbn [users datasets model_trainings deployed_models
                              set_users]; split_and!; try done.
  by apply prefix_app_r.
Qed.

Lemma login_store E credentials token_time db :
  snd (login E credentials token_time db) = db.
Proof. unfold login. run; done. Qed.

(** X10: no request removes or rewrites a record.  After any request the
    users, the datasets and the models of before are still there, in
    their places, followed by what was added; and so are the deployments,
    each unchanged but for a [usage_count] that has not gone down. *)
Theorem store_only_grows E req db :
  let db' := snd (serve E req db) in
  users db `prefix_of` users db'
  /\ datasets db `prefix_of` datasets db'
  /\ model_trainings db `prefix_of` model_trainings db'
  /\ exists kept added,
       deployed_models db' = kept ++ added
       /\ Forall2 counted_on (deployed_models db) kept.
Proof.
  intros db'. subst db'.
  assert (Hsame : forall db0 : DB,
            users db `prefix_of` users db0 -> datasets db0 = datasets db ->
            model_trainings db0 = model_trainings db ->
            deployed_models db0 = deployed_models db ->
            users db `prefix_of` users db0
            /\ datasets db `prefix_of` datasets db0
            /\ model_trainings db `prefix_of` model_trainings db0
            /\ exists kept added,
                 deployed_models db0 = kept ++ added
                 /\ Forall2 counted_on (deployed_models db) kept).
  { intros db0 Hu -> -> ->. split_and!; try done.
    exists (deployed_models db), []. split; [by rewrite app_nil_r|].
    apply Forall2_counted_on_refl. }
  destruct req as [ud i now salt tt | cr tt | tok t c].
  - unfold serve. rewrite fmap_store.
    destruct (register_store E ud i now salt tt db) as (Hu & Hd & Hm & Hp).
    by apply Hsame.
  - unfold serve. rewrite fmap_store, login_store. by apply Hsame.
  - rewrite serve_authenticated.
    destruct (fst (get_current_user E tok t db)) as [u|e];
      [|by apply Hsame].
    destruct (run_call_store E c u db) as (Hu & Hd & Hm & Hp).
    split; [by rewrite Hu|].
    split; [destruct Hd as [->|(doc & _ & ->)]; [done | by apply prefix_app_r]|].
    split; [destruct Hm as [->|(m & _ & ->)]; [done | by apply prefix_app_r]|].
    destruct Hp as [->|[(d & _ & _ & ->)|(model_id & ->)]].
    + exists (deployed_models db), []. split; [by rewrite app_nil_r|].
      apply Forall2_counted_on_refl.
    + exists (deployed_models db), [d]. split; [done|].
      apply Forall2_counted_on_refl.
    + eexists _, []. split; [by rewrite app_nil_r|].
      apply update_one_counted_on.
Qed.

Lemma filter_update_one {A} (P Q : A -> Prop)
    `{Pdec : !forall x, Decision (P x)} `{Qdec : !forall x, Decision (Q x)}
    (f : A -> A) (l : list A) :
  (forall x, P x -> ~ Q x /\ ~ Q (f x)) ->
  filter Q (update_one P f l) = filter Q l.
Proof.
  intros H. induction l as [|x l IH]; [done|]. simpl.
  destruct (decide (P x)) as [HP|_].
  - destruct (H x HP) as [Hx Hfx].
    by rewrite !filter_cons, !decide_False.
  - by rewrite !filter_cons, IH.
Qed.

(** X11: a request changes the records of nobody but its caller.  After
    a call authenticated as a user, the users are as before, and so are
    the datasets, the models and the deployments of every other user;
    after a request that is not authenticated as anybody, the datasets,
    the models and the deployments are all as before. *)
Theorem other_users_untouched E req db :
  let db' := snd (serve E req db) in
  match caller_of E req db with
  | Some caller =>
      users db' = users db
      /\ filter (fun d => DatasetDoc.user_id d <> User.id caller) (datasets db')
         = filter (fun d => DatasetDoc.user_id d <> User.id caller) (datasets db)
      /\ filter (fun m => ModelTraining.user_id m <> User.id caller)
           (model_trainings db')
         = filter (fun m => ModelTraining.user_id m <> User.id caller)
             (model_trainings db)
      /\ filter (fun d => DeployedModel.user_id d <> User.id caller)
           (deployed_models db')
         = filter (fun d => DeployedModel.user_id d <> User.id caller)
             (deployed_models db)
  | None =>
      datasets db' = datasets db
      /\ model_trainings db' = model_trainings db
      /\ deployed_models db' = deployed_models db
  end.
Proof.
  intros db'. subst db'.
  destruct req as [ud i now salt tt | cr tt | tok t c]; cbn [caller_of].
  - unfold serve. rewrite fmap_store.
    by destruct (register_store E ud i now salt tt db) as (_ & ? & ? & ?).
  - unfold serve. by rewrite fmap_store, login_store.
  - rewrite serve_authenticated.
    destruct (fst (get_current_user E tok t db)) as [u|e]; [|done].
    destruct (run_call_store E c u db) as (Hu & Hd & Hm & Hp).
    split; [done|].
    split; [destruct Hd as [->|(doc & Hdoc & ->)]; [done|];
            by rewrite filter_app, filter_cons_False, filter_nil, app_nil_r
              by (by intros [])|].
    split; [destruct Hm as [->|(m & Hm' & ->)]; [done|];
            by rewrite filter_app, filter_cons_False, filter_nil, app_nil_r
              by (by intros [])|].
    destruct Hp as [->|[(d & Hd' & _ & ->)|(model_id & ->)]]; [done| |].
    + by rewrite filter_app, filter_cons_False, filter_nil, app_nil_r
        by (by intros []).
    + apply filter_update_one. intros x [_ Hx].
      split; intros Hne; apply Hne; [done | by destruct x].
Qed.

(** ** Listings and the dashboard *)

Lemma listing_shape {A} (P : A -> Prop) `{Pdec : !forall x, Decision (P x)}
    (l : list A) :
  let listed := to_list 1000 (find P l) in
  listed `sublist_of` l
  /\ Forall P listed
  /\ length listed = Nat.min 1000 (count_documents P l)
  /\ ((count_documents P l <= 1000)%nat -> forall x, x ∈ l -> P x -> x ∈ listed).
Proof.
  unfold to_list, find, count_documents. split_and!.
  - etrans; [apply sublist_take | apply sublist_filter].
  - apply Forall_take, Forall_forall. by intros x [? _]%list_elem_of_filter.
  - apply length_take.
  - intros Hle x Hx HP. rewrite take_ge by done. by apply list_elem_of_filter.
Qed.

(** X12: the listings of models and of deployments leave the store as it
    was; each holds records of the caller only, in the order they were
    stored, and never more than 1000: exactly as many as the caller has,
    capped at 1000, and all of them while the caller has at most 1000. *)
Theorem listings_of_the_caller current_user db :
  let uid := User.id current_user in
  exists models deployments,
    get_models current_user db = (Returns models, db)
    /\ get_deployed_models current_user db = (Returns deployments, db)
    /\ models `sublist_of` model_trainings db
    /\ deployments `sublist_of` deployed_models db
    /\ Forall (fun m => ModelTraining.user_id m = uid) models
    /\ Forall (fun d => DeployedModel.user_id d = uid) deployments
    /\ length models
       = Nat.min 1000 (count_documents (training_of uid) (model_trainings db))
    /\ length deployments
       = Nat.min 1000 (count_documents (deployment_of uid) (deployed_models db))
    /\ ((count_documents (training_of uid) (model_trainings db) <= 1000)%nat ->
        forall m, m ∈ model_trainings db -> ModelTraining.user_id m = uid ->
                  m ∈ models)
    /\ ((count_documents (deployment_of uid) (deployed_models db) <= 1000)%nat ->
        forall d, d ∈ deployed_models db -> DeployedModel.user_id d = uid ->
                  d ∈ deployments).
Proof.
  intros uid.
  destruct (listing_shape (training_of uid) (model_trainings db))
    as (Hm1 & Hm2 & Hm3 & Hm4).
  destruct (listing_shape (deployment_of uid) (deployed_models db))
    as (Hd1 & Hd2 & Hd3 & Hd4).
  eexists _, _. split; [reflexivity|]. split; [reflexivity|].
  by split_and!.
Qed.

(** X13: the dashboard leaves the store as it was and agrees with the
    listings.  Its three counts are the numbers of the caller's datasets,
    models and deployments, of which each listing shows the first 1000;
    its [api_calls] is the sum of [usage_count] over the listed
    deployments, so over the first 1000 only. *)
Theorem dashboard_agrees_with_listings current_user db :
  exists s listed models deployments,
    get_dashboard_stats current_user db = (Returns s, db)
    /\ fst (get_datasets current_user db) = Returns listed
    /\ fst (get_models current_user db) = Returns models
    /\ fst (get_deployed_models current_user db) = Returns deployments
    /\ length listed = Nat.min 1000 (Stats.datasets s)
    /\ length models = Nat.min 1000 (Stats.models s)
    /\ length deployments = Nat.min 1000 (Stats.deployed s)
    /\ Stats.api_calls s
       = foldl Z.add 0 (DeployedModel.usage_count <$> deployments).
Proof.
  eexists _, _, _, _. split; [reflexivity|]. split; [reflexivity|].
  split; [reflexivity|]. split; [reflexivity|].
  cbn [Stats.datasets Stats.models Stats.deployed Stats.api_calls].
  unfold to_list, find, count_documents.
  split_and!; rewrite ?length_fmap; try apply length_take. done.
Qed.

Lemma fmap_returns {A B} (f : A -> B) (m : handler A) db r :
  fst ((f <$> m) db) = Returns r ->
  exists a, m db = (Returns a, snd ((f <$> m) db)) /\ r = f a.
Proof.
  unfold fmap, handler_fmap. destruct (m db) as [[a|e] db']; [|discriminate].
  intros [= <-]. by exists a.
Qed.

Lemma count_documents_snoc {A} (P : A -> Prop)
    `{Pdec : !forall x, Decision (P x)} (l : list A) (x : A) :
  P x -> count_documents P (l ++ [x]) = S (count_documents P l).
Proof.
  intros HP. unfold count_documents.
  rewrite filter_app, filter_cons_True, length_app by done. cbn. lia.
Qed.

Lemma foldl_add_shift (acc : Z) (l : list Z) :
  foldl Z.add acc l = acc + foldl Z.add 0 l.
Proof.
  revert acc. induction l as [|x l IH]; intros acc; cbn [foldl]; [lia|].
  rewrite (IH (acc + x)), (IH (0 + x)). lia.
Qed.

Lemma total_usage_app l k : total_usage (l ++ k) = total_usage l + total_usage k.
Proof.
  unfold total_usage. rewrite fmap_app, foldl_app. apply foldl_add_shift.
Qed.

Lemma total_usage_cons d l :
  total_usage (d :: l) = DeployedModel.usage_count d + total_usage l.
Proof. unfold total_usage. cbn. apply foldl_add_shift. Qed.

Lemma total_usage_take_snoc (l : list DeployedModel.t) d :
  DeployedModel.usage_count d = 0 ->
  total_usage (take 1000 (l ++ [d])) = total_usage (take 1000 l).
Proof.
  intros Hd. destruct (decide (1000 <= length l)%nat) as [Hlen|Hlen].
  - by rewrite take_app_le.
  - rewrite !take_ge by (rewrite ?length_app; cbn; lia).
    rewrite total_usage_app, total_usage_cons, Hd. unfold total_usage. cbn. lia.
Qed.

Lemma count_documents_update_one {A} (P Q : A -> Prop)
    `{Pdec : !forall x, Decision (P x)} `{Qdec : !forall x, Decision (Q x)}
    (f : A -> A) (l : list A) :
  (forall x, Q (f x) <-> Q x) ->
  count_documents Q (update_one P f l) = count_documents Q l.
Proof.
  intros Hf. unfold count_documents. induction l as [|x l IH]; [done|]. simpl.
  destruct (decide (P x)).
  - rewrite !filter_cons.
    destruct (decide (Q (f x))) as [H|H], (decide (Q x)) as [H'|H'];
      [done | destruct H'; by apply Hf | destruct H; by apply Hf | done].
  - rewrite !filter_cons. destruct (decide (Q x)); cbn; by rewrite IH.
Qed.

Lemma api_calls_of_total uid db :
  api_calls_of uid db
  = total_usage (to_list 1000 (find (deployment_of uid) (deployed_models db))).
Proof. reflexivity. Qed.

(** X14: the dashboard counts what succeeded.  After a call that
    returns, the caller's count of datasets, of models or of deployments
    is up by one for an upload, a training or a deployment and unchanged
    for every other call; and but for Predict the caller's [api_calls] is
    unchanged: a new deployment starts at 0. *)
Theorem dashboard_counts_successes E c current_user db r :
  fst (run_call E c current_user db) = Returns r ->
  let uid := User.id current_user in
  let db' := snd (run_call E c current_user db) in
  count_documents (dataset_of uid) (datasets db')
  = (count_documents (dataset_of uid) (datasets db) + (counts_added c).1.1)%nat
  /\ count_documents (training_of uid) (model_trainings db')
     = (count_documents (training_of uid) (model_trainings db)
        + (counts_added c).1.2)%nat
  /\ count_documents (deployment_of uid) (deployed_models db')
     = (count_documents (deployment_of uid) (deployed_models db)
        + (counts_added c).2)%nat
  /\ match c with
     | Predict _ _ => True
     | _ => api_calls_of uid db' = api_calls_of uid db
     end.
Proof.
  intros Hr uid db'.
  assert (Hread : db' = db ->
    count_documents (dataset_of uid) (datasets db')
    = (count_documents (dataset_of uid) (datasets db) + 0)%nat
    /\ count_documents (training_of uid) (model_trainings db')
       = (count_documents (training_of uid) (model_trainings db) + 0)%nat
    /\ count_documents (deployment_of uid) (deployed_models db')
       = (count_documents (deployment_of uid) (deployed_models db) + 0)%nat
    /\ api_calls_of uid db' = api_calls_of uid db).
  { intros ->. by rewrite !Nat.add_0_r. }
  assert (Hdb' : db' = snd (run_call E c current_user db)) by reflexivity.
  clearbody db'.
  destruct c; unfold run_call in *; cbn [counts_added fst snd];
    apply fmap_returns in Hr as (a & Ha & _); rewrite <- Hdb' in Ha; clear Hdb'.
  - destruct (upload_dataset_returns _ _ _ _ _ _ _ _ _ _ Ha)
      as (p & _ & _ & _ & Hd & ->).
    cbn [set_datasets datasets model_trainings deployed_models]. unfold insert_one.
    rewrite count_documents_snoc by (by rewrite Hd).
    rewrite !Nat.add_0_r. split_and!; [lia|done..].
  - apply Hread. by injection Ha.
  - destruct (train_model_returns _ _ _ _ _ _ _ _ _ _ _ Ha)
      as (ds & _ & _ & Ht & ->).
    cbn [set_model_trainings datasets model_trainings deployed_models].
    unfold insert_one.
    rewrite count_documents_snoc by (by rewrite Ht).
    rewrite !Nat.add_0_r. split_and!; [done|lia|done..].
  - apply Hread. by injection Ha.
  - apply Hread. pose proof (test_model_store E model_id test_data
                               current_user db) as Hs.
    rewrite Ha in Hs. by cbn [snd] in Hs.
  - destruct (deploy_model_returns _ _ _ _ _ _ _ Ha) as (H0 & [_ Hu] & ->).
    rewrite !api_calls_of_total.
    cbn [set_deployed_models datasets model_trainings deployed_models].
    unfold insert_one. rewrite count_documents_snoc by done.
    rewrite !Nat.add_0_r. split_and!; [done|done|lia|].
    unfold to_list. rewrite find_app_own by done.
    by apply total_usage_take_snoc.
  - apply Hread. by injection Ha.
  - pose proof (predict_store E model_id test_data current_user db) as Hs.
    rewrite Ha in Hs. cbn [snd] in Hs. subst db'.
    cbn [set_deployed_models datasets model_trainings deployed_models].
    rewrite !Nat.add_0_r. split_and!; try done.
    apply count_documents_update_one. intros x. by destruct x.
  - apply Hread. by injection Ha.
Qed.

Lemma dashboard_counts_successes_witness :
  let c := DeployModel (lit "m-1") (lit "dep-1") 130 in
  fst (run_call demo c bob db_trained) = Returns (DeploymentBody bob_deployment)
  /\ count_documents (deployment_of (User.id bob))
       (deployed_models (snd (run_call demo c bob db_trained)))
     = (count_documents (deployment_of (User.id bob)) (deployed_models db_trained)
        + 1)%nat
  /\ api_calls_of (User.id bob) (snd (run_call demo c bob db_trained))
     = api_calls_of (User.id bob) db_trained.
Proof.
  intros c.
  assert (H : fst (run_call demo c bob db_trained)
              = Returns (DeploymentBody bob_deployment)) by (by vm_compute).
  destruct (dashboard_counts_successes demo c bob db_trained _ H)
    as (_ & _ & Hcount & Hcalls).
  by split_and!.
Defined.

(** X15: every Predict of a deployed model counts once, whether it
    returns or raises.  When the caller has a deployment of the model and
    at most 1000 deployments, the caller's [api_calls] is up by exactly 1
    after the call; the [api_calls] of every other user is unchanged. *)
Theorem predict_counts_once E model_id test_data current_user db d :
  find_one (deployment_for model_id (User.id current_user)) (deployed_models db)
  = Some d ->
  (count_documents (deployment_of (User.id current_user)) (deployed_models db)
   <= 1000)%nat ->
  let db' := snd (predict E model_id test_data current_user db) in
  api_calls_of (User.id current_user) db'
  = api_calls_of (User.id current_user) db + 1
  /\ forall other,
       other <> User.id current_user ->
       api_calls_of other db' = api_calls_of other db.
Proof.
  intros Hd Hcount db'. subst db'. rewrite predict_store.
  rewrite !api_calls_of_total.
  cbn [set_deployed_models deployed_models]. split.
  - destruct (find_one_Some _ _ _ Hd) as ([Hm Hu] & before & after & Hl & Hb).
    unfold to_list, find, count_documents in *. rewrite Hl in *.
    rewrite update_one_first by done.
    rewrite !filter_app in *.
    rewrite (filter_cons_True _ d) in * by done.
    rewrite (filter_cons_True _ (inc_usage_count d)) by (by destruct d).
    rewrite !take_ge by (rewrite length_app in *; cbn [length] in *; lia).
    rewrite !total_usage_app, !total_usage_cons. destruct d. cbn. lia.
  - intros other Hother. rewrite !api_calls_of_total.
    cbn [set_deployed_models deployed_models]. unfold to_list, find.
    rewrite filter_update_one; [done|].
    intros x [_ Hx]. unfold deployment_of.
    split; [congruence | destruct x; cbn in *; congruence].
Qed.

Lemma predict_counts_once_witness :
  api_calls_of (User.id bob)
    (snd (predict demo_no_key (lit "m-1") hello bob db_deployed))
  = api_calls_of (User.id bob) db_deployed + 1
  /\ forall other,
       other <> User.id bob ->
       api_calls_of other
         (snd (predict demo_no_key (lit "m-1") hello bob db_deployed))
       = api_calls_of other db_deployed.
Proof.
  apply (predict_counts_once demo_no_key (lit "m-1") hello bob db_deployed
           bob_deployment); [by vm_compute | decide_closed].
Defined.

(** ** Invariants of the stores the API produces *)

Lemma get_current_user_returns E credentials now db u db' :
  get_current_user E credentials now db = (Returns u, db') ->
  exists d, d ∈ users db /\ u = User_of_doc d.
Proof.
  unfold get_current_user.
  destruct (jwt_decode E credentials (JWT_SECRET E) now) as [p|[]];
    try discriminate.
  destruct (Payload.user_id p) as [[|c s]|]; try discriminate. step.
  destruct (find_one _ (users db)) as [d|] eqn:Hd; [|discriminate].
  intros [= <- _]. exists d. split; [|done].
  destruct (find_one_Some _ _ _ Hd) as (_ & before & after & -> & _).
  apply elem_of_app. right. by left.
Qed.

Lemma register_effect E user_data new_id now salt token_time db :
  let db' := snd (register E user_data new_id now salt token_time db) in
  db' = db
  \/ exists doc,
       Forall (fun u => UserDoc.email u <> UserDoc.email doc) (users db)
       /\ db' = set_users (insert_one doc) db.
Proof.
  unfold register. step.
  destruct (find_one _ (users db)) as [d|] eqn:Hd; step; [by left|].
  destruct (hash_password E _ salt) as [hashed|e]; step; [|by left].
  right. eexists. split; [|reflexivity].
  cbn [UserDoc_of UserDoc.email User.email].
  exact (proj1 (find_one_None _ _) Hd).
Qed.

Lemma Forall_update_one {A} (P R : A -> Prop)
    `{Pdec : !forall x, Decision (P x)} (f : A -> A) (l : list A) :
  (forall x, R x -> R (f x)) -> Forall R l -> Forall R (update_one P f l).
Proof.
  intros Hf. induction 1 as [|x l Hx Hl IH]; simpl; [constructor|].
  destruct (decide (P x)); constructor; auto.
Qed.

(** What a call adds, with what the new record refers to. *)
Lemma run_call_refers E c current_user db :
  let db' := snd (run_call E c current_user db) in
  (model_trainings db' = model_trainings db
   \/ exists t, training_refers db t
                /\ model_trainings db' = model_trainings db ++ [t])
  /\ (deployed_models db' = deployed_models db
      \/ (exists d, deployment_refers db d
                    /\ deployed_models db' = deployed_models db ++ [d])
      \/ exists model_id,
           deployed_models db'
           = update_one (deployment_for model_id (User.id current_user))
               inc_usage_count (deployed_models db)).
Proof.
  intros db'. subst db'.
  destruct c; unfold run_call; rewrite fmap_store;
    try (split; [by left | by left]).
  - unfold upload_dataset, process_uploaded_data. run; split; by left.
  - unfold train_model. step.
    destruct (find_one _ (datasets db)) as [ds|] eqn:Hds; step;
      [|split; by left].
    destruct (validate_rows _ _) as [rows|e]; step; [|split; by left].
    split; [|by left]. right. eexists. split; [|reflexivity].
    destruct (find_one_Some _ _ _ Hds) as ([Hid Hu] & before & after & Hl & _).
    exists ds. split; [rewrite Hl; apply elem_of_app; right; by left | done].
  - rewrite test_model_store. split; by left.
  - unfold deploy_model. step.
    destruct (find_one _ (model_trainings db)) as [t|] eqn:Ht; step;
      [|split; by left].
    split; [by left|]. right. left. eexists. split; [|reflexivity].
    destruct (find_one_Some _ _ _ Ht) as ([Hid Hu] & before & after & Hl & _).
    split; [done|].
    exists t. split; [rewrite Hl; apply elem_of_app; right; by left | done].
  - rewrite predict_store. split; [by left|]. right. right. by eexists.
Qed.

Lemma stored_user_grows db db' uid :
  users db `prefix_of` users db' -> stored_user db uid -> stored_user db' uid.
Proof.
  intros [k Hk]. unfold stored_user. rewrite Hk, fmap_app, elem_of_app. by left.
Qed.

Lemma training_refers_grows db db' t :
  datasets db `prefix_of` datasets db' ->
  training_refers db t -> training_refers db' t.
Proof.
  intros [k Hk] (ds & Hin & H). exists ds. split; [|done].
  rewrite Hk, elem_of_app. by left.
Qed.

Lemma deployment_refers_grows db db' d :
  model_trainings db `prefix_of` model_trainings db' ->
  deployment_refers db d -> deployment_refers db' d.
Proof.
  intros [k Hk] (H0 & t & Hin & H). split; [done|]. exists t. split; [|done].
  rewrite Hk, elem_of_app. by left.
Qed.

Lemma deployment_refers_inc db d :
  deployment_refers db d -> deployment_refers db (inc_usage_count d).
Proof.
  intros (H0 & t & Hin & H). split; [destruct d; cbn in *; lia|].
  exists t. by destruct d.
Qed.

Lemma register_consistent E user_data new_id now salt token_time db :
  consistent db ->
  consistent (snd (register E user_data new_id now salt token_time db)).
Proof.
  intros [He Hd Ht Hp].
  destruct (register_effect E user_data new_id now salt token_time db)
    as [->|(doc & Hfresh & ->)]; [done|].
  assert (Hu : users db `prefix_of` users (set_users (insert_one doc) db))
    by (by apply prefix_app_r).
  split; cbn [set_users users datasets model_trainings deployed_models].
  - unfold emails_unique, set_users, insert_one in *. cbn [users].
    rewrite fmap_app. apply NoDup_app. split; [done|]. split.
    + intros e (u & -> & Hin)%list_elem_of_fmap [Heq|[]%elem_of_nil]%elem_of_cons.
      rewrite Forall_forall in Hfresh. by apply (Hfresh u).
    + apply NoDup_singleton.
  - eapply Forall_impl; [exact Hd|]. intros ds. by apply stored_user_grows.
  - eapply Forall_impl; [exact Ht|]. intros t. by apply training_refers_grows.
  - eapply Forall_impl; [exact Hp|]. intros d. by apply deployment_refers_grows.
Qed.

Lemma run_call_consistent E c current_user db :
  stored_user db (User.id current_user) ->
  consistent db -> consistent (snd (run_call E c current_user db)).
Proof.
  intros Hcaller [He Hd Ht Hp].
  destruct (run_call_store E c current_user db) as (Hu & Hds & Hts & _).
  destruct (run_call_refers E c current_user db) as (Hts' & Hps).
  set (db' := snd (run_call E c current_user db)) in *.
  assert (Hpu : users db `prefix_of` users db') by (by rewrite Hu).
  assert (Hpd : datasets db `prefix_of` datasets db')
    by (destruct Hds as [->|(doc & _ & ->)]; [done | by apply prefix_app_r]).
  assert (Hpt : model_trainings db `prefix_of` model_trainings db')
    by (destruct Hts as [->|(t & _ & ->)]; [done | by apply prefix_app_r]).
  split.
  - unfold emails_unique. by rewrite Hu.
  - assert (Hold : Forall (fun ds => stored_user db' (DatasetDoc.user_id ds))
                     (datasets db)).
    { eapply Forall_impl; [exact Hd|]. intros ds. by apply stored_user_grows. }
    destruct Hds as [->|(doc & Hdoc & ->)]; [done|].
    apply Forall_app. split; [done|]. constructor; [|done].
    rewrite Hdoc. by apply (stored_user_grows db).
  - assert (Hold : Forall (training_refers db') (model_trainings db)).
    { eapply Forall_impl; [exact Ht|]. intros t. by apply training_refers_grows. }
    destruct Hts' as [->|(t & Href & ->)]; [done|].
    apply Forall_app. split; [done|]. constructor; [|done].
    by apply (training_refers_grows db).
  - assert (Hold : Forall (deployment_refers db') (deployed_models db)).
    { eapply Forall_impl; [exact Hp|]. intros d.
      by apply deployment_refers_grows. }
    destruct Hps as [->|[(d & Href & ->)|(model_id & ->)]]; [done| |].
    + apply Forall_app. split; [done|]. constructor; [|done].
      by apply (deployment_refers_grows db).
    + apply Forall_update_one; [|done]. intros d. apply deployment_refers_inc.
Qed.

Lemma serve_consistent E req db :
  consistent db -> consistent (snd (serve E req db)).
Proof.
  intros Hdb. destruct req as [ud i now salt tt | cr tt | tok t c].
  - unfold serve. rewrite fmap_store. by apply register_consistent.
  - unfold serve. by rewrite fmap_store, login_store.
  - rewrite serve_authenticated.
    pose proof (get_current_user_store E tok t db) as Hs.
    destruct (get_current_user E tok t db) as [[u|e] db0] eqn:Hu;
      cbn [fst snd] in *; subst db0; [|done].
    apply run_call_consistent; [|done].
    destruct (get_current_user_returns _ _ _ _ _ _ Hu) as (d & Hin & ->).
    unfold stored_user. apply list_elem_of_fmap. by exists d.
Qed.

Lemma reachable_consistent db : reachable db -> consistent db.
Proof.
  induction 1 as [|E req db _ _ IH]; [|by apply serve_consistent].
  split; cbn; constructor.
Qed.

Ltac reach_demo :=
  repeat (apply reachable_serve; [apply demo_validation|]);
  apply reachable_empty.

Example two_users_after_duplicate :
  UserDoc.email <$> users db_after_duplicate
  = [lit "bob@example.com"; lit "alice@example.com"].
Proof. by vm_compute. Qed.

(** X16: as long as requests are served one after another, each to its
    end before the next begins, no two users share an email, so the user
    a login looks up by email is the only one with it.  Registrations
    that overlap are another matter, shown in the last section. *)
Theorem reachable_emails_unique db :
  reachable db ->
  NoDup (UserDoc.email <$> users db)
  /\ forall u,
       u ∈ users db ->
       find_one (user_has_email (UserDoc.email u)) (users db) = Some u.
Proof.
  intros [Hnd _ _ _]%reachable_consistent. unfold emails_unique in Hnd.
  split; [done|]. intros u Hu.
  destruct (find_one (user_has_email (UserDoc.email u)) (users db))
    as [d|] eqn:Hd.
  - f_equal.
    destruct (find_one_Some _ _ _ Hd) as (Hmail & before & after & Hl & Hb).
    rewrite Hl in Hu, Hnd.
    apply elem_of_app in Hu as [Hu|[->|Hu]%elem_of_cons]; [| done |].
    + rewrite Forall_forall in Hb. by destruct (Hb u Hu).
    + rewrite fmap_app, fmap_cons in Hnd.
      apply NoDup_app in Hnd as (_ & _ & Hnd).
      apply NoDup_cons in Hnd as [Hnotin _]. destruct Hnotin.
      rewrite Hmail. by apply list_elem_of_fmap_2.
  - apply find_one_None in Hd. rewrite Forall_forall in Hd.
    by destruct (Hd u Hu).
Qed.

Lemma reachable_emails_unique_witness :
  NoDup (UserDoc.email <$> users db_after_duplicate)
  /\ forall u,
       u ∈ users db_after_duplicate ->
       find_one (user_has_email (UserDoc.email u)) (users db_after_duplicate)
       = Some u.
Proof. apply (reachable_emails_unique db_after_duplicate). reach_demo. Defined.

(** X17: in every store the API can produce nothing dangles: every
    dataset is owned by a stored user, every model refers to a stored
    dataset of its owner, every deployment refers to a stored model of
    its owner and has a [usage_count] that is not negative; so no
    dashboard shows negative [api_calls]. *)
Theorem reachable_references db :
  reachable db ->
  Forall (fun ds => stored_user db (DatasetDoc.user_id ds)) (datasets db)
  /\ Forall (training_refers db) (model_trainings db)
  /\ Forall (deployment_refers db) (deployed_models db)
  /\ forall uid, 0 <= api_calls_of uid db.
Proof.
  intros [_ Hd Ht Hp]%reachable_consistent. split_and!; try done.
  intros uid. rewrite api_calls_of_total. unfold to_list, find.
  assert (H : Forall (fun d => 0 <= DeployedModel.usage_count d)
                (take 1000 (filter (deployment_of uid) (deployed_models db)))).
  { apply Forall_take, Forall_forall. intros d [_ Hin]%list_elem_of_filter.
    rewrite Forall_forall in Hp. by destruct (Hp d Hin). }
  induction H as [|d l Hd' _ IH]; [done|]. rewrite total_usage_cons. lia.
Qed.

Lemma reachable_references_witness :
  Forall (fun ds => stored_user db_bob_served (DatasetDoc.user_id ds))
    (datasets db_bob_served)
  /\ Forall (training_refers db_bob_served) (model_trainings db_bob_served)
  /\ Forall (deployment_refers db_bob_served) (deployed_models db_bob_served)
  /\ forall uid, 0 <= api_calls_of uid db_bob_served.
Proof. apply (reachable_references db_bob_served). reach_demo. Defined.

Example db_bob_served_has_a_deployment :
  DeployedModel.training_id <$> deployed_models db_bob_served = [lit "m-3"]
  /\ ModelTraining.id <$> model_trainings db_bob_served = [lit "m-3"].
Proof. split; by vm_compute. Qed.

(** X18: in every store the API can produce, a deployment of a model for
    a user means the user still has that model: Predict of a deployed
    model is never answered 404. *)
Theorem deployed_model_is_found db model_id uid d :
  reachable db ->
  find_one (deployment_for model_id uid) (deployed_models db) = Some d ->
  (exists t, find_one (training_is model_id uid) (model_trainings db) = Some t)
  /\ forall E test_data current_user detail,
       User.id current_user = uid ->
       fst (predict E model_id test_data current_user db)
       <> Raises (HTTPException 404 detail).
Proof.
  intros [_ _ _ Hp]%reachable_consistent Hd.
  destruct (find_one_Some _ _ _ Hd) as ([Hm Hu] & before & after & Hl & _).
  assert (Hin : d ∈ deployed_models db)
    by (rewrite Hl; apply elem_of_app; right; by left).
  rewrite Forall_forall in Hp. destruct (Hp d Hin) as (_ & t & Ht & Hid & Huid).
  assert (Hfound : exists t', find_one (training_is model_id uid)
                                (model_trainings db) = Some t').
  { destruct (find_one (training_is model_id uid) (model_trainings db))
      as [t'|] eqn:Hnone; [by exists t'|].
    apply find_one_None in Hnone. rewrite Forall_forall in Hnone.
    destruct (Hnone t Ht). split; congruence. }
  split; [done|]. intros E test_data current_user detail <-.
  destruct Hfound as [t' Ht'].
  change (predict E model_id test_data current_user db)
    with (test_model E model_id test_data current_user
            (set_deployed_models
               (update_one (deployment_for model_id (User.id current_user))
                  inc_usage_count) db)).
  unfold test_model. step. cbn [set_deployed_models model_trainings].
  rewrite Ht'. run; congruence.
Qed.

Lemma deployed_model_is_found_witness :
  (exists t, find_one (training_is (lit "m-3") (lit "u-bob"))
               (model_trainings db_bob_served) = Some t)
  /\ forall E test_data current_user detail,
       User.id current_user = lit "u-bob" ->
       fst (predict E (lit "m-3") test_data current_user db_bob_served)
       <> Raises (HTTPException 404 detail).
Proof.
  eapply (deployed_model_is_found db_bob_served (lit "m-3") (lit "u-bob"));
    [reach_demo | by vm_compute].
Defined.

(** ** Authentication *)

(** X19: the token of a registration authenticates as the user it
    registered, until it expires.  When the new identifier is not empty
    and no stored user had it, then in the store after the registration
    and in every store whose users extend it, the token the registration
    returned yields the user the registration returned at every clock
    reading before [int(token_time + 604800)], so at every reading up to
    one second before its seven days are over, and is refused with 401
    (Token expired) from [int(token_time + 604800)] on. *)
Theorem registration_token_authenticates E user_data (new_id : str) now salt
    (token_time : Q) db r db1 db2 (t : Q) :
  jwt_accepts_before_exp E -> jwt_rejects_from_exp E ->
  register E user_data new_id now salt token_time db = (Returns r, db1) ->
  new_id <> [] ->
  Forall (fun u => UserDoc.id u <> new_id) (users db) ->
  users db1 `prefix_of` users db2 ->
  let expires := inject_Z (py_int (token_time + 604800)) in
  let accepted :=
    get_current_user E (AuthResponse.access_token r) t db2
    = (Returns (AuthResponse.user r), db2) in
  ((t < expires)%Q -> accepted)
  /\ ((t <= token_time + 604800 - 1)%Q -> accepted)
  /\ ((expires <= t)%Q ->
      get_current_user E (AuthResponse.access_token r) t db2
      = (Raises (HTTPException 401 (lit "Token expired")), db2)).
Proof.
  intros Hacc Hrej Hreg Hid Hfresh [later Hlater] expires accepted.
  subst expires accepted.
  destruct (register_returns _ _ _ _ _ _ _ _ _ Hreg)
    as (hashed & _ & _ & Hdb1 & ->).
  cbn [AuthResponse.access_token AuthResponse.user].
  assert (Hbefore : (t < inject_Z (py_int (token_time + 604800)))%Q ->
            get_current_user E (create_access_token E new_id token_time) t db2
            = (Returns (User.mk new_id (UserCreate.email user_data)
                          (UserCreate.name user_data) now), db2)).
  { intros Ht. rewrite token_accepted by done.
    rewrite Hlater, Hdb1.
    rewrite (find_one_app_Some _ _ later
               (UserDoc_of (User.mk new_id (UserCreate.email user_data)
                              (UserCreate.name user_data) now) hashed));
      [done|].
    by apply find_one_first. }
  split; [done|]. split.
  - intros Ht. apply Hbefore.
    eapply Qle_lt_trans; [exact Ht|]. apply py_int_above.
  - intros Ht. by apply token_expired.
Qed.

Lemma registration_token_authenticates_witness :
  let token := create_access_token demo (lit "u-carol") (603 # 2) in
  let expires := inject_Z (py_int ((603 # 2) + 604800)) in
  let accepted :=
    get_current_user demo token 5000 db_with_carol
    = (Returns carol, db_with_carol) in
  ((5000 < expires)%Q -> accepted)
  /\ ((5000 <= (603 # 2) + 604800 - 1)%Q -> accepted)
  /\ ((expires <= 5000)%Q ->
      get_current_user demo token 5000 db_with_carol
      = (Raises (HTTPException 401 (lit "Token expired")), db_with_carol)).
Proof.
  apply (registration_token_authenticates demo carol_request (lit "u-carol") 300
           (ascii_bytes (lit "salt")) (603 # 2) db_trained
           (AuthResponse.mk (create_access_token demo (lit "u-carol") (603 # 2))
              carol)
           db_with_carol db_with_carol 5000 demo_jwt_accepts demo_jwt_rejects);
    try (by vm_compute); [decide_closed | reflexivity].
Defined.

Lemma authentication_failures E credentials auth_time db e :
  fst (get_current_user E credentials auth_time db) = Raises e ->
  e = HTTPException 401 (lit "Invalid token")
  \/ e = HTTPException 401 (lit "User not found")
  \/ e = HTTPException 401 (lit "Token expired")
  \/ exists library_error,
       e = Unhandled library_error
       /\ jwt_decode E credentials (JWT_SECRET E) auth_time
          = Raises library_error.
Proof.
  unfold get_current_user.
  destruct (jwt_decode E credentials (JWT_SECRET E) auth_time) as [p|le].
  - destruct (Payload.user_id p) as [[|ch s]|]; step;
      try (intros [= <-]; tauto).
    destruct (find_one _ (users db)); step; [discriminate|].
    intros [= <-]. tauto.
  - destruct le; step; intros [= <-]; try tauto;
      right; right; right; by eexists.
Qed.

(** X20: a call whose authentication fails runs no handler: the request
    is answered with the exception of the authentication and the store
    is as before.  That exception is a 401, with detail Invalid token,
    User not found or Token expired, unless the token library raised an
    exception that is not one of its own token errors. *)
Theorem failed_authentication_runs_nothing E credentials auth_time c db e :
  fst (get_current_user E credentials auth_time db) = Raises e ->
  serve E (Authenticated credentials auth_time c) db = (Raises e, db)
  /\ (e = HTTPException 401 (lit "Invalid token")
      \/ e = HTTPException 401 (lit "User not found")
      \/ e = HTTPException 401 (lit "Token expired")
      \/ exists library_error,
           e = Unhandled library_error
           /\ jwt_decode E credentials (JWT_SECRET E) auth_time
              = Raises library_error).
Proof.
  intros He. split; [by rewrite serve_authenticated, He|].
  by apply authentication_failures in He.
Qed.

Lemma failed_authentication_runs_nothing_witness :
  serve demo
    (Authenticated (lit "no") 500 (DeployModel (lit "m-1") (lit "dep-7") 500))
    db_trained
  = (Raises (HTTPException 401 (lit "Invalid token")), db_trained).
Proof.
  apply (failed_authentication_runs_nothing demo (lit "no") 500
           (DeployModel (lit "m-1") (lit "dep-7") 500) db_trained).
  by vm_compute.
Defined.

(** X21: the statuses a request can be answered with.  A registration
    raises 400 only and a login 401 only; an authenticated call raises 401
    from the authentication and, from its handler, 400 for an upload, 404
    for a training or a deployment, 404 or 500 for Test and Predict, and
    nothing for the listings and the dashboard. *)
Theorem statuses_by_request E req db code detail :
  fst (serve E req db) = Raises (HTTPException code detail) ->
  code ∈ request_statuses req.
Proof.
  destruct req as [ud i now salt tt | cr tt | tok t c]; cbn [request_statuses].
  - unfold serve, register. run; intros [= <- _]; by left.
  - unfold serve, login. run; intros [= <- _]; by left.
  - rewrite serve_authenticated.
    destruct (fst (get_current_user E tok t db)) as [u|e] eqn:Hu.
    + intros H. right. revert H.
      destruct c; unfold run_call, upload_dataset, get_datasets, train_model,
        get_models, predict, test_model, deploy_model, get_deployed_models,
        get_dashboard_stats, process_uploaded_data; cbn [call_statuses];
        run; intros [= <- _]; set_solver.
    + cbn [fst]. intros [= ->].
      destruct (authentication_failures E tok t db _ Hu)
        as [[= <- _]|[[= <- _]|[[= <- _]|(le & [=] & _)]]]; by left.
Qed.

Lemma statuses_by_request_witness :
  let req := Login (UserLogin.mk (lit "nobody@example.com") (lit "guess")) 10 in
  fst (serve demo req db_trained)
  = Raises (HTTPException 401 (lit "Invalid email or password"))
  /\ 401 ∈ request_statuses req.
Proof.
  intros req.
  assert (H : fst (serve demo req db_trained)
              = Raises (HTTPException 401 (lit "Invalid email or password")))
    by (by vm_compute).
  split; [exact H | exact (statuses_by_request demo req db_trained _ _ H)].
Defined.

(** ** Upload, then train *)

(** X22: a training reads the rows stored at upload, not the preview.
    After an upload under an identifier the caller had no dataset of, in
    that store and in every store whose datasets extend it, a training on
    that dataset is not answered 404: it validates the first 100 of all
    the parsed rows and stores them with the model, or fails with the
    exception of the validation and stores nothing. *)
Theorem upload_then_train E E' filename file_content name current_user new_id
    now db d db1 db2 r model_name custom_prompt model_id trained completed :
  upload_dataset E filename file_content name current_user new_id now db
  = (Returns d, db1) ->
  process_uploaded_data E file_content (file_extension_of E filename) = Returns r ->
  find_one (dataset_is new_id (User.id current_user)) (datasets db) = None ->
  datasets db1 `prefix_of` datasets db2 ->
  train_model E' new_id model_name custom_prompt current_user model_id trained
    completed db2
  = match validate_rows E' (take 100 (Processed.data r)) with
    | Returns rows =>
        let training :=
          ModelTraining.mk model_id model_name (User.id current_user) new_id
            (lit "completed") (lit "gemini-2.0-flash") custom_prompt rows
            trained (Some completed) in
        (Returns training, set_model_trainings (insert_one training) db2)
    | Raises e => (Raises (Unhandled e), db2)
    end.
Proof.
  intros Hup Hr Hfresh [later Hlater].
  destruct (upload_dataset_returns _ _ _ _ _ _ _ _ _ _ Hup)
    as (r' & Hr' & _ & _ & Hd & ->).
  rewrite Hr in Hr'. injection Hr' as <-.
  assert (Hfound : find_one (dataset_is new_id (User.id current_user))
                     (datasets db2)
                   = Some (DatasetDoc_of d (Processed.data r))).
  { rewrite Hlater. apply find_one_app_Some. cbn [set_datasets datasets].
    apply find_one_first; [exact (proj1 (find_one_None _ _) Hfresh)|].
    by rewrite Hd. }
  unfold train_model. step. rewrite Hfound.
  cbn [DatasetDoc_of DatasetDoc.full_data].
  by destruct (validate_rows E' _).
Qed.

Lemma upload_then_train_witness :
  train_model demo (lit "ds-3") (lit "rows model") (lit "Answer in one word.")
    bob (lit "m-3") 410 411 db_bob_uploaded
  = match validate_rows demo
            (take 100 [PyDict {[ lit "a" := PyInt 1 ]};
                       PyDict {[ lit "a" := PyInt 2 ]};
                       PyDict {[ lit "a" := PyInt 3 ]}]) with
    | Returns rows =>
        let training :=
          ModelTraining.mk (lit "m-3") (lit "rows model") (User.id bob)
            (lit "ds-3") (lit "completed") (lit "gemini-2.0-flash")
            (lit "Answer in one word.") rows 410 (Some 411) in
        (Returns training,
         set_model_trainings (insert_one training) db_bob_uploaded)
    | Raises e => (Raises (Unhandled e), db_bob_uploaded)
    end.
Proof.
  apply (upload_then_train demo demo (lit "rows.json")
           (ascii_bytes (dq "[{'a':1},{'a':2},{'a':3}]")) (lit "three rows") bob
           (lit "ds-3") 400 db_bob_registered three_rows_dataset db_bob_uploaded
           db_bob_uploaded
           (Processed.mk [PyDict {[ lit "a" := PyInt 1 ]};
                          PyDict {[ lit "a" := PyInt 2 ]};
                          PyDict {[ lit "a" := PyInt 3 ]}]
              [PyDict {[ lit "a" := PyInt 1 ]}; PyDict {[ lit "a" := PyInt 2 ]};
               PyDict {[ lit "a" := PyInt 3 ]}] 1 3));
    try (by vm_compute).
  reflexivity.
Defined.

(** ** Registrations that overlap *)

(** [register] is its lookup followed by the rest. *)
Lemma register_two_awaits E user_data new_id now salt token_time db :
  register E user_data new_id now salt token_time db
  = register_after_lookup E user_data new_id now salt token_time
      (register_lookup user_data db) db.
Proof. reflexivity. Qed.

(** X23: the check of [register] does not keep emails unique when two
    registrations overlap.  If a second registration for the same email
    looks the email up before the first has inserted its user, both
    return a token and the store holds two users with that email; served
    one after the other, the second is answered 400. *)
Theorem overlapping_registrations_share_an_email E first second id1 id2
    now1 now2 salt1 salt2 time1 time2 db hashed1 hashed2 :
  UserCreate.email second = UserCreate.email first ->
  register_lookup first db = None ->
  hash_password E (UserCreate.password first) salt1 = Returns hashed1 ->
  hash_password E (UserCreate.password second) salt2 = Returns hashed2 ->
  let user1 := User.mk id1 (UserCreate.email first) (UserCreate.name first)
                 now1 in
  let user2 := User.mk id2 (UserCreate.email second) (UserCreate.name second)
                 now2 in
  let found1 := register_lookup first db in
  let found2 := register_lookup second db in
  let run1 := register_after_lookup E first id1 now1 salt1 time1 found1 db in
  let run2 := register_after_lookup E second id2 now2 salt2 time2 found2
                (snd run1) in
  fst run1 = Returns (AuthResponse.mk (create_access_token E id1 time1) user1)
  /\ fst run2 = Returns (AuthResponse.mk (create_access_token E id2 time2) user2)
  /\ users (snd run2)
     = users db ++ [UserDoc_of user1 hashed1; UserDoc_of user2 hashed2]
  /\ ~ emails_unique (snd run2)
  /\ fst (register E second id2 now2 salt2 time2
            (snd (register E first id1 now1 salt1 time1 db)))
     = Raises (HTTPException 400 (lit "Email already registered")).
Proof.
  intros Hmail Hnone Hh1 Hh2 user1 user2 found1 found2 run1 run2.
  assert (Hnone2 : register_lookup second db = None).
  { unfold register_lookup in *. by rewrite Hmail. }
  subst found1 found2 run1 run2. rewrite Hnone, Hnone2.
  unfold register_after_lookup. step. rewrite Hh1. step. rewrite Hh2. step.
  split; [done|]. split; [done|].
  assert (Husers :
            users (set_users (insert_one (UserDoc_of user2 hashed2))
                     (set_users (insert_one (UserDoc_of user1 hashed1)) db))
            = users db ++ [UserDoc_of user1 hashed1; UserDoc_of user2 hashed2]).
  { cbn [users set_users]. unfold insert_one. by rewrite <- app_assoc. }
  split; [exact Husers|]. split.
  - unfold emails_unique. intros Hnd.
    assert (Hnd' : NoDup (UserDoc.email
                            <$> users db ++ [UserDoc_of user1 hashed1;
                                             UserDoc_of user2 hashed2]))
      by (rewrite <- Husers; exact Hnd).
    clear Hnd. rewrite fmap_app in Hnd'.
    apply NoDup_app in Hnd' as (_ & _ & Hnd).
    cbn in Hnd. apply NoDup_cons in Hnd as [Hnotin _]. apply Hnotin.
    rewrite Hmail. by left.
  - rewrite !register_two_awaits. rewrite Hnone.
    unfold register_after_lookup at 2. step. rewrite Hh1. step.
    unfold register_lookup. cbn [users set_users].
    rewrite Hmail.
    rewrite (find_one_first _ (users db) [] (UserDoc_of user1 hashed1));
      [done | exact (proj1 (find_one_None _ _) Hnone) | done].
Qed.

Lemma overlapping_registrations_share_an_email_witness :
  let user1 := User.mk (lit "u-alice") (lit "alice@example.com") (lit "Alice")
                 100 in
  let user2 := User.mk (lit "u-alice-2") (lit "alice@example.com") (lit "Alice")
                 104 in
  let found1 := register_lookup alice_request db_bob_registered in
  let found2 := register_lookup alice_request db_bob_registered in
  let run1 := register_after_lookup demo alice_request (lit "u-alice") 100
                (ascii_bytes (lit "salt")) 103 found1 db_bob_registered in
  let run2 := register_after_lookup demo alice_request (lit "u-alice-2") 104
                (ascii_bytes (lit "salt")) 105 found2 (snd run1) in
  fst run1
  = Returns (AuthResponse.mk (create_access_token demo (lit "u-alice") 103) user1)
  /\ fst run2
     = Returns
         (AuthResponse.mk (create_access_token demo (lit "u-alice-2") 105) user2)
  /\ users (snd run2)
     = users db_bob_registered
       ++ [UserDoc_of user1 (lit "wonderland"); UserDoc_of user2 (lit "wonderland")]
  /\ ~ emails_unique (snd run2)
  /\ fst (register demo alice_request (lit "u-alice-2") 104
            (ascii_bytes (lit "salt")) 105
            (snd (register demo alice_request (lit "u-alice") 100
                    (ascii_bytes (lit "salt")) 103 db_bob_registered)))
     = Raises (HTTPException 400 (lit "Email already registered")).
Proof.
  apply (overlapping_registrations_share_an_email demo alice_request
           alice_request (lit "u-alice") (lit "u-alice-2") 100 104
           (ascii_bytes (lit "salt")) (ascii_bytes (lit "salt")) 103 105
           db_bob_registered (lit "wonderland") (lit "wonderland"));
    by vm_compute.
Defined.
